(** * GSLT manager: a shallow embedding of [gslt_manager.py]

    The Python module drives a browser over Steam's game-server token page.
    The embedding keeps the shape of the source:

    - Python strings are [string]; the builtins the code relies on
      ([str.strip], [str.upper], [in] on strings, [int(str)], truthiness)
      are written out for ASCII text;
    - the DOM is a record per element kind, holding what each Selenium
      query of the source returns on it;
    - exceptions are a result type; [try/except] is a combinator;
    - the browser session is a history of driver commands, the remote site
      a function from histories to the page it shows; methods of
      [SteamGSLTManager] are state-and-exception computations over it;
    - the module-level singleton is an explicit module state. *)

From Stdlib Require Import String Ascii List Bool Arith ZArith NArith Lia.
From Stdlib Require Import DecimalString.
Import ListNotations.
Local Open Scope string_scope.
Local Open Scope list_scope.

(** ** Python builtins used by the module *)

Module Py.

(** [str.isspace] on a single ASCII character: TAB..CR, FS..US and space. *)
Definition is_space (a : ascii) : bool :=
  let n := N_of_ascii a in
  ((9 <=? n) && (n <=? 13) || (28 <=? n) && (n <=? 32))%N.

Fixpoint lstrip (s : string) : string :=
  match s with
  | String a s' => if is_space a then lstrip s' else s
  | EmptyString => EmptyString
  end.

Fixpoint rstrip (s : string) : string :=
  match s with
  | EmptyString => EmptyString
  | String a s' =>
      match rstrip s' with
      | EmptyString => if is_space a then EmptyString else String a EmptyString
      | r => String a r
      end
  end.

(** [s.strip()] *)
Definition strip (s : string) : string := rstrip (lstrip s).

(** [s.upper()], on ASCII letters; other characters are kept. *)
Definition upper_char (a : ascii) : ascii :=
  let n := N_of_ascii a in
  if ((97 <=? n) && (n <=? 122))%N then ascii_of_N (n - 32) else a.

Fixpoint upper (s : string) : string :=
  match s with
  | EmptyString => EmptyString
  | String a s' => String (upper_char a) (upper s')
  end.

(** [s.lower()], on ASCII letters; other characters are kept. *)
Definition lower_char (a : ascii) : ascii :=
  let n := N_of_ascii a in
  if ((65 <=? n) && (n <=? 90))%N then ascii_of_N (n + 32) else a.

Fixpoint lower (s : string) : string :=
  match s with
  | EmptyString => EmptyString
  | String a s' => String (lower_char a) (lower s')
  end.

(** [needle in hay] for two strings *)
Fixpoint str_in (needle hay : string) : bool :=
  String.prefix needle hay
  || match hay with
     | EmptyString => false
     | String _ hay' => str_in needle hay'
     end.

(** Truthiness of a [str] and of an [Optional[str]]. *)
Definition truthy (s : string) : bool := negb (s =? "").

Definition truthy_opt (o : option string) : bool :=
  match o with Some s => truthy s | None => false end.

(** [x or ""] for an [Optional[str]] *)
Definition or_empty (o : option string) : string :=
  match o with Some s => if truthy s then s else "" | None => "" end.

(** [s or None] *)
Definition or_none (s : string) : option string :=
  if truthy s then Some s else None.

Definition digit_val (a : ascii) : option Z :=
  let n := N_of_ascii a in
  if ((48 <=? n) && (n <=? 57))%N then Some (Z.of_N (n - 48)) else None.

(** The digit part of a decimal literal accepted by [int(str)]: digits,
    with single underscores allowed between two digits. [after_digit] tells
    whether the previous character was a digit. *)
Fixpoint digits (acc : Z) (after_digit : bool) (s : string) : option Z :=
  match s with
  | EmptyString => if after_digit then Some acc else None
  | String a s' =>
      match digit_val a with
      | Some d => digits (10 * acc + d) true s'
      | None =>
          if (Ascii.eqb a "_" && after_digit)%bool
          then digits acc false s'
          else None
      end
  end.

(** [int(s)] in base 10: surrounding whitespace is skipped, one sign is
    allowed; [None] stands for [ValueError]. (The interpreter's cap on the
    number of digits, also a [ValueError], is not modelled.) *)
Definition int (s : string) : option Z :=
  match strip s with
  | String "+" r => digits 0 false r
  | String "-" r => option_map Z.opp (digits 0 false r)
  | t => digits 0 false t
  end.

(** [str(n)] for an [int] *)
Definition str (n : Z) : string := NilZero.string_of_int (Z.to_int n).

End Py.

(** ** Exceptions *)

Inductive exn : Type :=
| NoSuchElementException
| StaleElementReferenceException
| TimeoutException
| IndexError
| ValueError (msg : string)
| RuntimeError (msg : string).

Inductive res (A : Type) : Type :=
| Ok (a : A)
| Raise (e : exn).
Arguments Ok {A} a.
Arguments Raise {A} e.

Definition is_ok {A} (r : res A) : bool :=
  match r with Ok _ => true | Raise _ => false end.

(** ** The page, as the queries of the source see it *)

(** A [<form>] of the actions cell: [get_attribute("action")], and the
    outcome of [find_element(By.NAME, "steamid")] followed by
    [get_attribute("value")] ([None]: no such element). *)
Record Form : Type := mkForm {
  form_action : option string;
  form_steamid : option (option string)
}.

(** What [window.getComputedStyle(e)] exposes to the script of
    [_cell_not_struck]; a property can be undefined. *)
Record Style : Type := mkStyle {
  textDecorationLine : option string;
  textDecoration : option string
}.

(** A [<td>]: its [.text], the outcome of [find_elements] for the tags [s]
    and [strike] (number of elements found), the outcome of the
    computed-style script, and the forms below it. *)
Record Cell : Type := mkCell {
  cell_text : string;
  cell_s : res nat;
  cell_strike : res nat;
  cell_style : res Style;
  cell_forms : list Form
}.

(** A [<tr>]: [find_elements(By.TAG_NAME, "td")] *)
Record Row : Type := mkRow { row_tds : list Cell }.

(** A [<table>]: [find_elements(By.CSS_SELECTOR, "tbody > tr")] *)
Record Table : Type := mkTable { table_rows : list Row }.

(** The creation form: are the fields named [appid] and [memo] there? *)
Record CreateForm : Type := mkCreateForm {
  cf_appid : bool;
  cf_memo : bool
}.

(** The document currently loaded. [page_server_list] is the element with
    id [serverList], given by the tables below it. [page_ids] lists the
    other ids present; [page_submit_button] is [button[type='submit']]. *)
Record Page : Type := mkPage {
  page_server_list : option (list Table);
  page_create_form : option CreateForm;
  page_ids : list string;
  page_submit_button : bool
}.

Definition has_id (i : string) (p : Page) : bool :=
  existsb (String.eqb i) (page_ids p).

(** ** Token *)

Record Token : Type := mkToken {
  appid : Z;
  gslt : string;
  last_logon : option string;
  memo : string;
  steamid : string;
  valid : bool
}.

(** ** The class [SteamGSLTManager] *)

Module SteamGSLTManager.

(** *** Row scraping *)

Definition is_mutation_action (action : string) : bool :=
  Py.str_in "resetgstoken" action
  || Py.str_in "deletegsaccount" action
  || Py.str_in "updategsmemo" action.

(** The loop of [_extract_steamid_from_row] over the forms of a cell. *)
Fixpoint scan_forms (fs : list Form) : res string :=
  match fs with
  | [] => Ok ""
  | f :: fs' =>
      let action := Py.or_empty (form_action f) in
      if is_mutation_action action then
        match form_steamid f with
        | None => Raise NoSuchElementException
        | Some hid =>
            if Py.truthy_opt hid then Ok (Py.or_empty hid) else scan_forms fs'
        end
      else scan_forms fs'
  end.

(** [xs[-1]] *)
Definition last_item {A} (xs : list A) : res A :=
  match rev xs with
  | x :: _ => Ok x
  | [] => Raise IndexError
  end.

Definition _extract_steamid_from_row (row : Row) : res string :=
  match last_item (row_tds row) with
  | Ok forms_cell => scan_forms (cell_forms forms_cell)
  | Raise e => Raise e
  end.

(** [a || b || ''] of the script *)
Definition computed_decoration (st : Style) : string :=
  if Py.truthy_opt (textDecorationLine st) then Py.or_empty (textDecorationLine st)
  else if Py.truthy_opt (textDecoration st) then Py.or_empty (textDecoration st)
  else "".

(** First [try] block: [find_elements("s") or find_elements("strike")],
    taken as a truth value. *)
Definition tag_probe (c : Cell) : res bool :=
  match cell_s c with
  | Raise e => Raise e
  | Ok n =>
      if (0 <? n)%nat then Ok true
      else match cell_strike c with
           | Raise e => Raise e
           | Ok m => Ok (0 <? m)%nat
           end
  end.

(** Second [try] block: the value of the script. *)
Definition style_probe (c : Cell) : res bool :=
  match cell_style c with
  | Raise e => Raise e
  | Ok st => Ok (Py.str_in "line-through" (computed_decoration st))
  end.

Definition _cell_not_struck (c : Cell) : bool :=
  match tag_probe c with
  | Ok true => false
  | _ =>
      match style_probe c with
      | Ok true => false
      | _ => true
      end
  end.

(** The body of the [for r in rows] loop of [_parse_token_table]:
    [Ok None] is [continue], [Ok (Some t)] is [tokens.append(t)]. *)
Definition parse_row (r : Row) : res (option Token) :=
  match row_tds r with
  | td0 :: td1 :: td2 :: td3 :: _ :: _ =>
      let appid_txt := Py.strip (cell_text td0) in
      let gslt_cell := td1 in
      let last_logon_txt := Py.or_none (Py.strip (cell_text td2)) in
      let memo_txt := Py.strip (cell_text td3) in
      let gslt_txt := Py.strip (cell_text gslt_cell) in
      let is_valid := _cell_not_struck gslt_cell in
      match _extract_steamid_from_row r with
      | Raise e => Raise e
      | Ok sid =>
          match Py.int appid_txt with
          | None => Ok None
          | Some appid_val =>
              Ok (Some (mkToken appid_val gslt_txt last_logon_txt memo_txt
                                sid is_valid))
          end
      end
  | _ => Ok None
  end.

Fixpoint parse_rows (rows : list Row) : res (list Token) :=
  match rows with
  | [] => Ok []
  | r :: rows' =>
      match parse_row r with
      | Raise e => Raise e
      | Ok o =>
          match parse_rows rows' with
          | Raise e => Raise e
          | Ok tokens =>
              Ok (match o with Some t => t :: tokens | None => tokens end)
          end
      end
  end.

(** [_parse_token_table] on the document currently loaded. *)
Definition parse_token_table (p : Page) : res (list Token) :=
  match page_server_list p with
  | None => Ok []
  | Some tables =>
      match tables with
      | [] => Ok []
      | table :: _ => parse_rows (table_rows table)
      end
  end.

(** *** The browser session

    The driver's state is the history of the commands sent to it, most
    recent first. What the browser then shows is up to the remote site: a
    [Site] gives the loaded document and the current URL after any
    history. Waiting is part of the history, so a page may change while
    the code sleeps or polls. *)

Inductive FormTarget : Type :=
| CreateAccountForm
| RowForm (f : Form).

Inductive Event : Type :=
| Get (url : string)                       (* driver.get(url) *)
| SendKeys (target : string) (keys : string)
| Clear (target : string)
| Click (target : string)
| Submit (target : FormTarget)             (* execute_script("arguments[0].submit();", form) *)
| Sleep (ms : N)                           (* time.sleep *)
| Poll.                                    (* one poll interval of a WebDriverWait *)

Definition History : Type := list Event.

Record Site : Type := mkSite {
  site_page : History -> Page;
  site_url : History -> string
}.

(** [os.environ] *)
Record Env : Type := mkEnv {
  STEAM_USER : option string;
  STEAM_PASS : option string
}.

(** An instance of the class: the attributes set by [__init__], and
    [mgr_id], the identity of the object. The throttle is kept in
    milliseconds. *)
Record Manager : Type := mkManager {
  mgr_id : nat;
  get_guard_code : option (res string);
  throttle : N
}.

Definition MANAGE_URL : string := "https://steamcommunity.com/dev/managegameservers".
Definition LOGIN_URL : string := "https://store.steampowered.com/login/".
Definition DEFAULT_TIMEOUT : nat := 25.

(** [LOGIN_URL.split("//")[1].split("/")[0]] *)
Definition LOGIN_HOST : string := "store.steampowered.com".

(** A submission that changes the account: a scripted form submit. *)
Definition is_mutation (e : Event) : bool :=
  match e with Submit _ => true | _ => false end.

Definition mutations (h : History) : list Event := filter is_mutation h.

(** *** State and exceptions *)

Definition M (A : Type) : Type := History -> res A * History.

Definition ret {A} (a : A) : M A := fun h => (Ok a, h).

Definition raise {A} (e : exn) : M A := fun h => (Raise e, h).

Definition bind {A B} (m : M A) (f : A -> M B) : M B :=
  fun h =>
    match m h with
    | (Ok a, h') => f a h'
    | (Raise e, h') => (Raise e, h')
    end.

Notation "x <- m ;; k" := (bind m (fun x => k))
  (at level 61, m at next level, right associativity).
Notation "m ;;; k" := (bind m (fun _ => k))
  (at level 61, right associativity).

(** [try: m  except Exception: handler] *)
Definition try_except {A} (m : M A) (handler : M A) : M A :=
  fun h =>
    match m h with
    | (Ok a, h') => (Ok a, h')
    | (Raise _, h') => handler h'
    end.

Definition lift {A} (r : res A) : M A := fun h => (r, h).

Definition emit (e : Event) : M unit := fun h => (Ok tt, e :: h).

(** [xs[i]] *)
Definition item {A} (i : nat) (xs : list A) : res A :=
  match nth_error xs i with
  | Some x => Ok x
  | None => Raise IndexError
  end.

Section Session.

Variable site : Site.
Variable env : Env.

Definition page : M Page := fun h => (Ok (site_page site h), h).

Definition current_url : M string := fun h => (Ok (site_url site h), h).

(** [WebDriverWait(driver, timeout).until(cond)]: test, sleep one poll
    interval (half a second) after a failed test, and test again while
    the deadline allows: [2 * timeout] tests in all (one when the timeout
    is zero), then [TimeoutException]. [wait_loop polls] tests once and
    then up to [polls] more times. *)
Fixpoint wait_loop (polls : nat) (cond : History -> bool) : M unit :=
  fun h =>
    if cond h then (Ok tt, h)
    else match polls with
         | O => (Raise TimeoutException, Poll :: h)
         | S n => wait_loop n cond (Poll :: h)
         end.

Definition wait_until (timeout : nat) (cond : History -> bool) : M unit :=
  wait_loop (2 * timeout - 1) cond.

(** [EC.presence_of_element_located((By.ID, i))] *)
Definition presence_of_id (i : string) (h : History) : bool :=
  has_id i (site_page site h).

Definition presence_of_server_list (h : History) : bool :=
  match page_server_list (site_page site h) with Some _ => true | None => false end.

Definition presence_of_create_form (h : History) : bool :=
  match page_create_form (site_page site h) with Some _ => true | None => false end.

(** [EC.url_contains(s)] *)
Definition url_contains (s : string) (h : History) : bool :=
  Py.str_in s (site_url site h).

(** [driver.find_element(By.ID, i)] *)
Definition find_element_by_id (i : string) : M unit :=
  p <- page ;;
  if has_id i p then ret tt else raise NoSuchElementException.

Definition credentials_missing : string :=
  "Login required but STEAM_USER/STEAM_PASS not set. " ++
  "Prefer reusing a logged-in Chrome profile via user_data_dir/profile_dir.".

Definition guard_required : string :=
  "Steam Guard code required but no get_guard_code callback provided.".

(** The [try] block of [_login_flow] that handles Steam Guard. *)
Definition guard_block (self : Manager) : M unit :=
  wait_until 6 (presence_of_id "authcode") ;;;
  code <- match get_guard_code self with
          | Some callback => c <- lift callback ;; ret (Some c)
          | None => ret None
          end ;;
  if negb (Py.truthy_opt code) then raise (RuntimeError guard_required)
  else
    emit (SendKeys "authcode" (Py.or_empty code)) ;;;
    find_element_by_id "auth_buttonset_entercode" ;;;
    emit (Click "auth_buttonset_entercode") ;;;
    wait_until DEFAULT_TIMEOUT (url_contains "steam").

Definition _login_flow (self : Manager) : M unit :=
  shown <- try_except
             (wait_until DEFAULT_TIMEOUT (presence_of_id "input_username") ;;; ret true)
             (ret false) ;;
  if negb shown then ret tt   (* maybe already logged in *)
  else
    let user := STEAM_USER env in
    let pw := STEAM_PASS env in
    if negb (Py.truthy_opt user) || negb (Py.truthy_opt pw)
    then raise (RuntimeError credentials_missing)
    else
      find_element_by_id "input_username" ;;;
      emit (SendKeys "input_username" (Py.or_empty user)) ;;;
      find_element_by_id "input_password" ;;;
      emit (SendKeys "input_password" (Py.or_empty pw)) ;;;
      p <- page ;;
      (if page_submit_button p then ret tt else raise NoSuchElementException) ;;;
      emit (Click "button[type='submit']") ;;;
      (* Steam Guard? *)
      try_except (guard_block self) (ret tt).

Definition _ensure_manage_page (self : Manager) : M unit :=
  emit (Get MANAGE_URL) ;;;
  url <- current_url ;;
  (if Py.str_in LOGIN_HOST url
   then _login_flow self ;;; emit (Get MANAGE_URL)
   else ret tt) ;;;
  wait_until DEFAULT_TIMEOUT presence_of_server_list.

Definition _has_token_table : M bool :=
  p <- page ;;
  match page_server_list p with
  | None => ret false
  | Some tables => ret (0 <? length tables)%nat
  end.

Definition not_signed_in : string :=
  "Not signed in. Either call ensure_signed_in(interactive=True) " ++
  "or set STEAM_USER/STEAM_PASS and optionally get_guard_code().".

Definition interactive_timeout : string :=
  "Timed out waiting for interactive login to complete.".

(** The [while] loop of [ensure_signed_in], for a clock that allows
    [turns] more turns. *)
Fixpoint interactive_loop (turns : nat) : M unit :=
  match turns with
  | O => raise (RuntimeError interactive_timeout)
  | S turns' =>
      emit (Sleep 2000) ;;;
      url <- current_url ;;
      if negb (Py.str_in "login" (Py.lower url)) then
        emit (Get MANAGE_URL) ;;;
        found <- _has_token_table ;;
        if found then ret tt else interactive_loop turns'
      else interactive_loop turns'
  end.

(** The number of turns of the loop when only its own two-second sleeps
    move the clock. *)
Definition turns_of (timeout : nat) : nat := (timeout + 1) / 2.

Definition ensure_signed_in (self : Manager) (interactive : bool)
    (timeout : nat) : M unit :=
  emit (Get MANAGE_URL) ;;;
  found <- _has_token_table ;;
  if found then ret tt   (* already signed in *)
  else
    signed <- (if negb interactive
                  && Py.truthy_opt (STEAM_USER env)
                  && Py.truthy_opt (STEAM_PASS env)
               then _login_flow self ;;;
                    emit (Get MANAGE_URL) ;;;
                    _has_token_table
               else ret false) ;;
    if signed then ret tt
    else if negb interactive then raise (RuntimeError not_signed_in)
    else emit (Get LOGIN_URL) ;;; interactive_loop (turns_of timeout).

(** [form.find_element(By.NAME, name)] on the creation form *)
Definition find_create_field (field : CreateForm -> bool) : M unit :=
  p <- page ;;
  match page_create_form p with
  | Some form => if field form then ret tt else raise NoSuchElementException
  | None => raise StaleElementReferenceException
  end.

Definition _fill_create_form (a : Z) (m : string) : M unit :=
  wait_until DEFAULT_TIMEOUT presence_of_create_form ;;;
  find_create_field cf_appid ;;; emit (Clear "appid") ;;;
  find_create_field cf_appid ;;; emit (SendKeys "appid" (Py.str a)) ;;;
  find_create_field cf_memo ;;; emit (Clear "memo") ;;;
  find_create_field cf_memo ;;; emit (SendKeys "memo" m) ;;;
  emit (Submit CreateAccountForm).

Definition _parse_token_table : M (list Token) :=
  p <- page ;; lift (parse_token_table p).

Definition get_all_tokens (self : Manager) (a : option Z) : M (list Token) :=
  _ensure_manage_page self ;;;
  tokens <- _parse_token_table ;;
  match a with
  | None => ret tokens
  | Some a => ret (filter (fun t => appid t =? a)%Z tokens)
  end.

(** [t.gslt.upper() == gslt.upper()] *)
Definition same_token (g1 g2 : string) : bool :=
  Py.upper g1 =? Py.upper g2.

Definition mem (s : string) (xs : list string) : bool :=
  existsb (String.eqb s) xs.

Definition create_failed : string :=
  "Create GSLT appears to have failed or page structure changed.".

(** The end of [create_gslt]: the choice among the tokens of the appid. *)
Definition pick_created (before : list string) (after : list Token)
    (m : string) : res string :=
  match find (fun t => negb (mem (gslt t) before) && (memo t =? m)) after with
  | Some t => Ok (gslt t)
  | None =>
      match rev after with
      | t :: _ => Ok (gslt t)
      | [] => Raise (RuntimeError create_failed)
      end
  end.

Definition create_gslt (self : Manager) (a : Z) (m : string) : M string :=
  _ensure_manage_page self ;;;
  all <- get_all_tokens self None ;;
  let before := map gslt all in
  _fill_create_form a m ;;;
  emit (Sleep (throttle self)) ;;;
  _ensure_manage_page self ;;;
  listed <- get_all_tokens self None ;;
  let after := filter (fun t => appid t =? a)%Z listed in
  lift (pick_created before after m).

Definition is_token_valid (self : Manager) (g : string) : M bool :=
  _ensure_manage_page self ;;;
  tokens <- _parse_token_table ;;
  match find (fun t => same_token (gslt t) g) tokens with
  | Some t => ret (valid t)
  | None => ret false
  end.

(** [driver.find_element(By.ID, "serverList").find_element(By.TAG_NAME, "table")],
    then its body rows *)
Definition table_body : M (list Row) :=
  p <- page ;;
  match page_server_list p with
  | Some (table :: _) => ret (table_rows table)
  | _ => raise NoSuchElementException
  end.

Fixpoint row_by_token (g : string) (rows : list Row) : res (option Row) :=
  match rows with
  | [] => Ok None
  | r :: rows' =>
      match item 1 (row_tds r) with
      | Raise e => Raise e
      | Ok td =>
          if same_token (Py.strip (cell_text td)) g then Ok (Some r)
          else row_by_token g rows'
      end
  end.

Definition _find_row_by_token (g : string) : M (option Row) :=
  tokens <- _parse_token_table ;;
  match find (fun t => same_token (gslt t) g) tokens with
  | None => ret None
  | Some _ => rows <- table_body ;; lift (row_by_token g rows)
  end.

Fixpoint row_by_steamid (sid : string) (rows : list Row) : res (option Row) :=
  match rows with
  | [] => Ok None
  | r :: rows' =>
      match _extract_steamid_from_row r with
      | Raise e => Raise e
      | Ok s => if s =? sid then Ok (Some r) else row_by_steamid sid rows'
      end
  end.

Definition _find_row_by_steamid (sid : string) : M (option Row) :=
  rows <- table_body ;; lift (row_by_steamid sid rows).

Definition token_not_found : string := "Token not found on manage page.".
Definition regen_form_missing : string :=
  "Could not locate regenerate form for this token.".
Definition post_regen_missing : string :=
  "Post-regen row not found; page structure may have changed.".

Definition regenerate_token (self : Manager) (g : string) : M string :=
  _ensure_manage_page self ;;;
  row <- _find_row_by_token g ;;
  match row with
  | None => raise (ValueError token_not_found)
  | Some row =>
      sid <- lift (_extract_steamid_from_row row) ;;
      forms_cell <- lift (last_item (row_tds row)) ;;
      match find (fun f => Py.str_in "resetgstoken" (Py.or_empty (form_action f)))
                 (cell_forms forms_cell) with
      | None => raise (RuntimeError regen_form_missing)
      | Some regen_form =>
          emit (Submit (RowForm regen_form)) ;;;
          emit (Sleep (throttle self + 1500)) ;;;
          _ensure_manage_page self ;;;
          new_row <- _find_row_by_steamid sid ;;
          match new_row with
          | None =>
              emit (Sleep (throttle self)) ;;;
              all_tokens <- _parse_token_table ;;
              match find (fun t => steamid t =? sid) all_tokens with
              | Some t => ret (gslt t)
              | None => raise (RuntimeError post_regen_missing)
              end
          | Some new_row =>
              td <- lift (item 1 (row_tds new_row)) ;;
              ret (Py.strip (cell_text td))
          end
      end
  end.

End Session.

End SteamGSLTManager.

(** ** Module level: the shared instance *)

(** The keyword arguments of [SteamGSLTManager.__init__]. *)
Record Kwargs : Type := mkKwargs {
  user_data_dir : option string;
  profile_dir : option string;
  headless : bool;
  kw_get_guard_code : option (res string);
  throttle_seconds : N
}.

(** [SteamGSLTManager()] *)
Definition default_kwargs : Kwargs := mkKwargs None None true None 1000.

(** The module's global [_singleton], and the number of manager objects
    built so far (the next object identity). *)
Record Globals : Type := mkGlobals {
  _singleton : option SteamGSLTManager.Manager;
  next_id : nat
}.

Section ModuleLevel.

Variable site : SteamGSLTManager.Site.
Variable env : SteamGSLTManager.Env.

(** Starting Chrome in [__init__] can fail. *)
Variable launch : Kwargs -> res unit.

(** The constructor call of [init_manager], with its keyword arguments. *)
Definition new_manager (kw : Kwargs) (g : Globals)
  : res SteamGSLTManager.Manager * Globals :=
  match launch kw with
  | Ok _ =>
      (Ok (SteamGSLTManager.mkManager (next_id g) (kw_get_guard_code kw)
             (throttle_seconds kw)),
       mkGlobals (_singleton g) (S (next_id g)))
  | Raise e => (Raise e, g)
  end.

Definition init_manager (kw : Kwargs) (g : Globals)
  : res SteamGSLTManager.Manager * Globals :=
  match _singleton g with
  | None =>
      match new_manager kw g with
      | (Ok m, g') => (Ok m, mkGlobals (Some m) (next_id g'))
      | (Raise e, g') => (Raise e, g')
      end
  | Some m => (Ok m, g)
  end.

(** [mgr = init_manager(); return mgr.method(...)] *)
Definition forward {A} (method : SteamGSLTManager.Manager -> SteamGSLTManager.M A)
    (g : Globals) (h : SteamGSLTManager.History)
  : res A * Globals * SteamGSLTManager.History :=
  match init_manager default_kwargs g with
  | (Ok mgr, g') => let (r, h') := method mgr h in (r, g', h')
  | (Raise e, g') => (Raise e, g', h)
  end.

Definition create_gslt (a : Z) (m : string) :=
  forward (fun mgr => SteamGSLTManager.create_gslt site env mgr a m).

Definition get_all_tokens (a : option Z) :=
  forward (fun mgr => SteamGSLTManager.get_all_tokens site env mgr a).

Definition is_token_valid (g : string) :=
  forward (fun mgr => SteamGSLTManager.is_token_valid site env mgr g).

Definition regenerate_token (g : string) :=
  forward (fun mgr => SteamGSLTManager.regenerate_token site env mgr g).

End ModuleLevel.

(** ** Vocabulary of the properties *)

Module Mgr := SteamGSLTManager.

(** [tds[i].text.strip()] of a row, as the scrape reads it. *)
Definition cell_txt (r : Row) (i : nat) : string :=
  match nth_error (row_tds r) i with
  | Some c => Py.strip (cell_text c)
  | None => ""
  end.

(** A row the scrape keeps: at least five cells, and a first cell that
    [int] accepts. *)
Definition well_formed_row (r : Row) : bool :=
  (5 <=? length (row_tds r))%nat
  && match Py.int (cell_txt r 0) with Some _ => true | None => false end.

(** The record [t] carries the visible fields of the row [r]. *)
Definition row_yields (r : Row) (t : Token) : Prop :=
  Py.int (cell_txt r 0) = Some (appid t)
  /\ gslt t = cell_txt r 1
  /\ last_logon t = (if cell_txt r 2 =? "" then None else Some (cell_txt r 2))
  /\ memo t = cell_txt r 3.

(** The body rows [_parse_token_table] walks over. *)
Definition scraped_rows (p : Page) : list Row :=
  match page_server_list p with
  | Some (table :: _) => table_rows table
  | _ => []
  end.

(** A form whose action names one of the three mutation endpoints. *)
Definition matching_form (f : Form) : bool :=
  Mgr.is_mutation_action (Py.or_empty (form_action f)).

(** The value attribute of the form's hidden [steamid] field, [""] when
    the attribute or the field is missing. *)
Definition hidden_steamid (f : Form) : string :=
  match form_steamid f with
  | Some v => Py.or_empty v
  | None => ""
  end.

(** A matching form that has a non-empty hidden value. *)
Definition usable_form (f : Form) : bool :=
  matching_form f && Py.truthy (hidden_steamid f).

(** The steamid claim at a row: the answer is the hidden value of the first
    form of the trailing cell that matches an endpoint, and the empty
    string when no form matches. *)
Definition steamid_of_first_match (r : Row) : Prop :=
  forall c, Mgr.last_item (row_tds r) = Ok c ->
    match find matching_form (cell_forms c) with
    | Some f => Mgr._extract_steamid_from_row r = Ok (hidden_steamid f)
    | None => Mgr._extract_steamid_from_row r = Ok ""
    end.

(** Every scraped record has a positive appid. *)
Definition appids_positive : Prop :=
  forall p toks t,
    Mgr.parse_token_table p = Ok toks -> In t toks -> (0 < appid t)%Z.

(** The page contract for a row: every form of the trailing cell that
    names a mutation endpoint carries a hidden [steamid] field. *)
Definition carries_steamid (r : Row) : bool :=
  match rev (row_tds r) with
  | c :: _ =>
      forallb (fun f => negb (matching_form f)
                        || match form_steamid f with Some _ => true | None => false end)
              (cell_forms c)
  | [] => true
  end.

(** A computation that submits no form: it leaves the mutations of the
    history as they were, whatever it returns. *)
Definition quiet {A} (m : Mgr.M A) : Prop :=
  forall h, Mgr.mutations (snd (m h)) = Mgr.mutations h.

(** The creation claim: a returned token is not among the tokens of the
    appid listed before the submission, and the record bearing it on the
    page the call ends on has the requested memo. *)
Definition create_returns_fresh_token : Prop :=
  forall site env self a m h g h' h1 all h2,
    Mgr.create_gslt site env self a m h = (Ok g, h') ->
    Mgr._ensure_manage_page site env self h = (Ok tt, h1) ->
    Mgr.get_all_tokens site env self None h1 = (Ok all, h2) ->
    ~ In g (map gslt (filter (fun t => appid t =? a)%Z all))
    /\ (forall toks t,
          Mgr.parse_token_table (Mgr.site_page site h') = Ok toks ->
          In t toks -> gslt t = g -> memo t = m).

(** A record that [create_gslt] takes for the new one. *)
Definition looks_created (before : list string) (m : string) (t : Token) : Prop :=
  ~ In (gslt t) before /\ memo t = m.

(** A computation that never ends by raising [e]. *)
Definition never_raises {A} (e : exn) (m : Mgr.M A) : Prop :=
  forall h, fst (m h) <> Raise e.

(** A computation whose exceptions all satisfy [allowed]. *)
Definition raises_only {A} (allowed : exn -> Prop) (m : Mgr.M A) : Prop :=
  forall h e h', m h = (Raise e, h') -> allowed e.

(** The exceptions of the page check: the wait for the container ran
    out, credentials are missing, or an element of the login page is. *)
Definition page_check_error (e : exn) : Prop :=
  e = TimeoutException
  \/ e = RuntimeError Mgr.credentials_missing
  \/ e = NoSuchElementException.

(** [n] polls of a wait, as a piece of history. *)
Definition polls (n : nat) : Mgr.History := repeat Mgr.Poll n.

(** Events that act on the page: typing, clicking, clearing, submitting. *)
Definition is_action (e : Mgr.Event) : bool :=
  match e with
  | Mgr.SendKeys _ _ | Mgr.Clear _ | Mgr.Click _ | Mgr.Submit _ => true
  | _ => false
  end.

Definition actions_of (h : Mgr.History) : list Mgr.Event := filter is_action h.

(** The page shows a table under the [serverList] container. *)
Definition shows_table (p : Page) : bool :=
  match page_server_list p with
  | Some (_ :: _) => true
  | _ => false
  end.

(** A form whose action names the reset endpoint. *)
Definition is_reset_form (f : Form) : bool :=
  Py.str_in "resetgstoken" (Py.or_empty (form_action f)).

(** The rows [pre] all have a second cell, and none of these equals [g]
    up to letter case: a search by token goes past them. *)
Definition passed_over (g : string) (pre : list Row) : Prop :=
  forall r, In r pre ->
    exists c, nth_error (row_tds r) 1 = Some c
              /\ Py.upper (Py.strip (cell_text c)) <> Py.upper g.

(** A computation that adds to the history only events satisfying [Q]. *)
Definition adds_only {A} (Q : Mgr.Event -> Prop) (m : Mgr.M A) : Prop :=
  forall h e, In e (snd (m h)) -> In e h \/ Q e.

(** The events of a scripted login. *)
Definition login_event (env : Mgr.Env) (self : Mgr.Manager) (e : Mgr.Event) : Prop :=
  e = Mgr.Poll
  \/ e = Mgr.SendKeys "input_username" (Py.or_empty (Mgr.STEAM_USER env))
  \/ e = Mgr.SendKeys "input_password" (Py.or_empty (Mgr.STEAM_PASS env))
  \/ e = Mgr.Click "button[type='submit']"
  \/ (exists code,
        Mgr.get_guard_code self = Some (Ok code) /\ code <> ""
        /\ e = Mgr.SendKeys "authcode" code)
  \/ e = Mgr.Click "auth_buttonset_entercode".

(** Steamid extraction succeeds on every row of [pre], with a result
    other than [sid]: a search by steamid goes past them. *)
Definition skipped (sid : string) (pre : list Row) : Prop :=
  forall r, In r pre ->
    exists s, Mgr._extract_steamid_from_row r = Ok s /\ s <> sid.

(** The first cell of the row reads the appid asked for; with no appid
    asked for, every row passes. *)
Definition reads_appid (a : option Z) (r : Row) : bool :=
  match a with
  | None => true
  | Some a =>
      match Py.int (cell_txt r 0) with
      | Some n => (n =? a)%Z
      | None => false
      end
  end.

(** [needle] occurs in [s] as a substring. *)
Definition occurs_in (needle s : string) : Prop :=
  exists pre post, s = (pre ++ needle ++ post)%string.

(** The decoration the style script reads: textDecorationLine when it
    is a non-empty string, else textDecoration when that is one. *)
Definition decoration_read (st : Style) (s : string) : Prop :=
  (textDecorationLine st = Some s /\ s <> "")
  \/ ((textDecorationLine st = None \/ textDecorationLine st = Some "")
      /\ textDecoration st = Some s /\ s <> "").

(** The computed decoration includes a line-through value. *)
Definition line_through_style (st : Style) : Prop :=
  exists s, decoration_read st s /\ occurs_in "line-through" s.

(** The tag inspection finds a strikethrough-tagged descendant: the
    lookup of [s] returns one, or returns none and that of [strike]
    returns one. *)
Definition tag_found (c : Cell) : Prop :=
  (exists n, cell_s c = Ok n /\ (0 < n)%nat)
  \/ (cell_s c = Ok 0%nat /\ exists m, cell_strike c = Ok m /\ (0 < m)%nat).

(** The style inspection returns a decoration with line-through. *)
Definition style_found (c : Cell) : Prop :=
  exists st, cell_style c = Ok st /\ line_through_style st.

(** The inspections raise. *)
Definition tag_inspection_fails (c : Cell) : Prop :=
  (exists e, cell_s c = Raise e)
  \/ (cell_s c = Ok 0%nat /\ exists e, cell_strike c = Raise e).

Definition style_inspection_fails (c : Cell) : Prop :=
  exists e, cell_style c = Raise e.

(** The loop of [_extract_steamid_from_row] goes past the form: it names
    no mutation endpoint, or its [steamid] field has an empty value. *)
Definition form_passed (f : Form) : Prop :=
  matching_form f = false
  \/ exists v, form_steamid f = Some v /\ Py.truthy_opt v = false.

(** The scrape of the page returns and lists a token equal to [g] up to
    letter case. *)
Definition token_listed (p : Page) (g : string) : Prop :=
  exists toks t,
    Mgr.parse_token_table p = Ok toks /\ In t toks
    /\ Py.upper (gslt t) = Py.upper g.

(** ** Sample pages *)

Module Demo.

Definition no_decoration : Style := mkStyle (Some "none") (Some "none").

Definition plain (txt : string) : Cell :=
  mkCell txt (Ok 0%nat) (Ok 0%nat) (Ok no_decoration) [].

Definition struck (txt : string) : Cell :=
  mkCell txt (Ok 1%nat) (Ok 0%nat) (Ok no_decoration) [].

Definition endpoint (name : string) : option string :=
  Some ("https://steamcommunity.com/dev/" ++ name)%string.

(** A token cell struck through by style only, the line property being
    empty. *)
Definition crossed_out : Style := mkStyle (Some "") (Some "underline line-through").

Definition styled (txt : string) : Cell :=
  mkCell txt (Ok 0%nat) (Ok 0%nat) (Ok crossed_out) [].

(** A token cell on which both inspections raise. *)
Definition unreadable : Cell :=
  mkCell "ABC123" (Raise StaleElementReferenceException) (Ok 1%nat)
         (Raise TimeoutException) [].

(** The three forms of an actions cell, each with its hidden field. *)
Definition actions (sid : string) : Cell :=
  mkCell "" (Ok 0%nat) (Ok 0%nat) (Ok no_decoration)
    [ mkForm (endpoint "resetgstoken") (Some (Some sid));
      mkForm (endpoint "deletegsaccount") (Some (Some sid));
      mkForm (endpoint "updategsmemo") (Some (Some sid)) ].

Definition token_row (a g l m sid : string) (is_struck : bool) : Row :=
  mkRow [ plain a; (if is_struck then struck g else plain g); plain l;
          plain m; actions sid ].

Definition manage_page (rows : list Row) : Page :=
  mkPage (Some [mkTable rows]) (Some (mkCreateForm true true)) [] false.

(** The table of the specification's scenario. *)
Definition two_tokens : list Row :=
  [ token_row "730" "ABC123" "" "bot1" "1" false;
    token_row "730" "DEF456" "" "bot2" "2" true ].

(** A header-like row, a row with a textual first cell, and a token. *)
Definition mixed_rows : list Row :=
  [ mkRow [plain "App"; plain "Token"];
    token_row "n/a" "XXX" "" "" "9" false;
    token_row " 440 " "AAA111" "Jan 1" "tf2" "7" false ].

(** An actions cell whose reset form has no [steamid] field. *)
Definition bare_actions : Cell :=
  mkCell "" (Ok 0%nat) (Ok 0%nat) (Ok no_decoration)
    [ mkForm (endpoint "resetgstoken") None ].

Definition bare_row : Row :=
  mkRow [ plain "730"; plain "ABC123"; plain ""; plain "bot1"; bare_actions ].

(** A table with a sound row and the row whose reset form lacks its
    field, in both orders. *)
Definition broken_rows : list Row :=
  [ token_row "730" "DEF456" "" "bot2" "2" false; bare_row ].

Definition broken_rows' : list Row :=
  [ bare_row; token_row "730" "DEF456" "" "bot2" "2" false ].

(** An actions cell whose reset form has an empty [steamid] value while
    the delete form has one. *)
Definition uneven_actions : Cell :=
  mkCell "" (Ok 0%nat) (Ok 0%nat) (Ok no_decoration)
    [ mkForm (endpoint "resetgstoken") (Some (Some ""));
      mkForm (endpoint "deletegsaccount") (Some (Some "42")) ].

Definition uneven_row : Row :=
  mkRow [ plain "730"; plain "ABC123"; plain ""; plain "bot1"; uneven_actions ].

(** A row whose first cell reads zero. *)
Definition zero_row : Row := token_row "0" "ABC123" "" "bot1" "1" false.

(** A site that always shows the same token table, whatever is
    submitted to it. *)
Definition static_site (rows : list Row) : Mgr.Site :=
  Mgr.mkSite (fun _ => manage_page rows) (fun _ => Mgr.MANAGE_URL).

(** The login page, with the Steam Guard prompt showing. *)
Definition guard_page : Page :=
  mkPage None None
    ["input_username"; "input_password"; "authcode"; "auth_buttonset_entercode"]
    true.

Definition guarded_site : Mgr.Site :=
  Mgr.mkSite (fun _ => guard_page) (fun _ => Mgr.LOGIN_URL).

Definition creds : Mgr.Env := Mgr.mkEnv (Some "user") (Some "secret").

(** Managers without a guard-code callback, and with one that returns an
    empty code. *)
Definition no_callback : Mgr.Manager := Mgr.mkManager 0 None 1000.
Definition empty_callback : Mgr.Manager := Mgr.mkManager 0 (Some (Ok "")) 1000.

(** Chrome always starts. *)
Definition launch_ok (kw : Kwargs) : res unit := Ok tt.

(** A site that lists a third token once the creation form has been
    submitted. *)
Definition creating_site : Mgr.Site :=
  Mgr.mkSite
    (fun h => manage_page
                (two_tokens ++
                 if existsb Mgr.is_mutation h
                 then [token_row "730" "GHI789" "" "new" "3" false] else []))
    (fun _ => Mgr.MANAGE_URL).

(** Where a creation ends on [creating_site], from a fresh session. *)
Definition created_history : Mgr.History :=
  snd (Mgr.create_gslt creating_site creds no_callback 730 "new" []).

(** The instance a first [init_manager()] builds, and the module state
    it leaves. *)
Definition shared_manager : Mgr.Manager := Mgr.mkManager 0 None 1000.
Definition shared_globals : Globals := mkGlobals (Some shared_manager) 1.

(** Keyword arguments of a later call. *)
Definition other_kwargs : Kwargs :=
  mkKwargs (Some "/tmp/profile") None false (Some (Ok "12345")) 250.


End Demo.

(** ** Properties of the scrape *)

Lemma parse_rows_ok_inv r rows toks :
  Mgr.parse_rows (r :: rows) = Ok toks ->
  exists o rest,
    Mgr.parse_row r = Ok o /\ Mgr.parse_rows rows = Ok rest
    /\ toks = match o with Some t => t :: rest | None => rest end.
Proof.
  simpl. destruct (Mgr.parse_row r) as [o|e]; [|discriminate].
  destruct (Mgr.parse_rows rows) as [rest|e]; [|discriminate].
  intros H. inversion H. eauto.
Qed.

Lemma or_none_spec s :
  Py.or_none s = if s =? "" then None else Some s.
Proof. unfold Py.or_none, Py.truthy. destruct (s =? ""); reflexivity. Qed.

(** What one turn of the loop does with a row, when it does not raise. *)
Lemma parse_row_spec r o :
  Mgr.parse_row r = Ok o ->
  match o with
  | Some t =>
      well_formed_row r = true /\ row_yields r t
      /\ Mgr._extract_steamid_from_row r = Ok (steamid t)
      /\ (forall c, nth_error (row_tds r) 1 = Some c ->
                    valid t = Mgr._cell_not_struck c)
  | None => well_formed_row r = false
  end.
Proof.
  unfold Mgr.parse_row, well_formed_row, row_yields, cell_txt.
  destruct r as [tds]; simpl.
  destruct tds as [|td0 [|td1 [|td2 [|td3 [|td4 tds]]]]];
    try (intros H; inversion H; reflexivity).
  simpl.
  destruct (Mgr._extract_steamid_from_row _) as [sid|e]; [|discriminate].
  destruct (Py.int (Py.strip (cell_text td0))) as [n|];
    intros H; inversion H; subst; simpl; [|reflexivity].
  rewrite or_none_spec. repeat split; try reflexivity.
  intros c Hc. inversion Hc. reflexivity.
Qed.

Lemma parse_rows_spec rows : forall toks,
  Mgr.parse_rows rows = Ok toks ->
  Forall2 row_yields (filter well_formed_row rows) toks.
Proof.
  induction rows as [|r rows IH]; intros toks H.
  - inversion H. constructor.
  - apply parse_rows_ok_inv in H as (o & rest & Hr & Hrest & ->).
    apply parse_row_spec in Hr. simpl.
    destruct o as [t|].
    + destruct Hr as (-> & Hy & _). constructor; auto.
    + rewrite Hr. auto.
Qed.

Lemma parse_rows_from rows : forall toks t,
  Mgr.parse_rows rows = Ok toks -> In t toks ->
  exists r, In r rows /\ Mgr.parse_row r = Ok (Some t).
Proof.
  induction rows as [|r rows IH]; intros toks t H Hin.
  - inversion H; subst. destruct Hin.
  - apply parse_rows_ok_inv in H as (o & rest & Hr & Hrest & ->).
    destruct o as [t'|].
    + destruct Hin as [<-|Hin].
      * exists r. split; [left; reflexivity | exact Hr].
      * destruct (IH _ _ Hrest Hin) as (r' & ? & ?). exists r'. split; [right|]; assumption.
    + destruct (IH _ _ Hrest Hin) as (r' & ? & ?). exists r'. split; [right|]; assumption.
Qed.

Lemma parse_token_table_rows p :
  Mgr.parse_token_table p = Mgr.parse_rows (scraped_rows p).
Proof.
  unfold Mgr.parse_token_table, scraped_rows.
  destruct (page_server_list p) as [[|table tables]|]; reflexivity.
Qed.

(** C1 (evaluation at the failing input). A body row whose reset form
    lacks the hidden [steamid] field makes the whole scrape raise
    [NoSuchElementException]; the row is not dropped, and the well-formed
    row listed before it is lost with it. *)
Theorem parse_token_table_raises_on_missing_steamid :
  Mgr.parse_token_table
    (Demo.manage_page [Demo.token_row "730" "DEF456" "" "bot2" "2" false;
                       Demo.bare_row])
  = Raise NoSuchElementException.
Proof. reflexivity. Qed.

Lemma truthy_or_empty v :
  Py.truthy (Py.or_empty v) = Py.truthy_opt v.
Proof.
  destruct v as [s|]; simpl; [|reflexivity].
  destruct (Py.truthy s) eqn:E; [exact E | reflexivity].
Qed.

Lemma scan_forms_spec fs :
  (forall f, In f fs -> matching_form f = true -> form_steamid f <> None) ->
  Mgr.scan_forms fs
  = Ok (match find usable_form fs with
        | Some f => hidden_steamid f
        | None => ""
        end).
Proof.
  induction fs as [|f fs IH]; intros H; [reflexivity|].
  simpl. unfold usable_form at 1. unfold matching_form at 1.
  destruct (Mgr.is_mutation_action (Py.or_empty (form_action f))) eqn:Em; simpl.
  - unfold hidden_steamid at 1.
    destruct (form_steamid f) as [v|] eqn:Ev.
    + rewrite truthy_or_empty.
      destruct (Py.truthy_opt v) eqn:Et.
      * unfold hidden_steamid. rewrite Ev. reflexivity.
      * apply IH. intros; apply H; [right|]; assumption.
    + exfalso. apply (H f); [left; reflexivity | exact Em | exact Ev].
  - apply IH. intros; apply H; [right|]; assumption.
Qed.

Lemma scan_forms_no_match fs :
  (forall f, In f fs -> matching_form f = false) ->
  Mgr.scan_forms fs = Ok "".
Proof.
  induction fs as [|f fs IH]; intros H; [reflexivity|].
  simpl. assert (Hf := H f (or_introl eq_refl)). unfold matching_form in Hf.
  rewrite Hf. apply IH. intros; apply H; right; assumption.
Qed.

Lemma parse_row_total r :
  ((5 <= length (row_tds r))%nat -> is_ok (Mgr._extract_steamid_from_row r) = true) ->
  exists o, Mgr.parse_row r = Ok o.
Proof.
  unfold Mgr.parse_row. destruct r as [tds]; simpl.
  destruct tds as [|td0 [|td1 [|td2 [|td3 [|td4 tds]]]]]; try (eexists; reflexivity).
  intros H.
  destruct (Mgr._extract_steamid_from_row _) as [sid|e].
  - destruct (Py.int _); eexists; reflexivity.
  - simpl in H. discriminate H. simpl; lia.
Qed.

Lemma parse_rows_total rows :
  (forall r, In r rows -> (5 <= length (row_tds r))%nat ->
             is_ok (Mgr._extract_steamid_from_row r) = true) ->
  exists toks, Mgr.parse_rows rows = Ok toks.
Proof.
  induction rows as [|r rows IH]; intros H.
  - eexists; reflexivity.
  - destruct (parse_row_total r) as [o Ho]; [apply H; left; reflexivity|].
    destruct IH as [toks Ht]; [intros; apply H; [right|]; assumption|].
    simpl. rewrite Ho, Ht. eexists; reflexivity.
Qed.

Lemma carries_steamid_extract r :
  carries_steamid r = true -> (1 <= length (row_tds r))%nat ->
  is_ok (Mgr._extract_steamid_from_row r) = true.
Proof.
  unfold carries_steamid, Mgr._extract_steamid_from_row, Mgr.last_item.
  intros Hc Hl.
  destruct (rev (row_tds r)) as [|c l] eqn:Er.
  - apply (f_equal (@length Cell)) in Er. rewrite length_rev in Er.
    simpl in Er. lia.
  - rewrite scan_forms_spec; [reflexivity|].
    intros f Hf Hm Hnone. rewrite forallb_forall in Hc.
    specialize (Hc f Hf). rewrite Hm, Hnone in Hc. discriminate Hc.
Qed.

(** On a page that keeps the page contract (in every body row of five
    cells or more, the forms naming a mutation endpoint carry their
    hidden [steamid] field), the scrape returns, and its records are, in
    order, exactly one per body row that has at least five cells and a
    first cell read by [int]: the record's appid is that integer, its
    gslt the text of the second cell, its last_logon the text of the
    third cell or [None] when that text is empty, its memo the text of
    the fourth cell. (Texts are taken after [strip()].) *)
Theorem parse_token_table_records p :
  (forall r, In r (scraped_rows p) -> (5 <= length (row_tds r))%nat ->
             carries_steamid r = true) ->
  exists toks,
    Mgr.parse_token_table p = Ok toks
    /\ Forall2 row_yields (filter well_formed_row (scraped_rows p)) toks.
Proof.
  intros H. rewrite parse_token_table_rows.
  destruct (parse_rows_total (scraped_rows p)) as [toks Ht].
  - intros r Hr Hl. apply carries_steamid_extract; [apply H; assumption | lia].
  - exists toks. split; [exact Ht | apply parse_rows_spec, Ht].
Qed.

Lemma parse_token_table_records_witness :
  exists toks,
    Mgr.parse_token_table (Demo.manage_page Demo.mixed_rows) = Ok toks
    /\ Forall2 row_yields
         (filter well_formed_row (scraped_rows (Demo.manage_page Demo.mixed_rows)))
         toks.
Proof.
  apply (parse_token_table_records (Demo.manage_page Demo.mixed_rows)).
  intros r Hin _. simpl in Hin.
  destruct Hin as [<-|[<-|[<-|[]]]]; reflexivity.
Defined.

(** C4 (evaluation at the failing input). A body row with five cells
    whose first cell reads the integer 730 yields no record when its
    reset form lacks the hidden [steamid] field: the loop body raises
    [NoSuchElementException] before the row is appended, and the scrape
    of a table holding it returns no record at all, not even for the
    sound row that follows. *)
Theorem well_formed_row_yields_no_record :
  (5 <= length (row_tds Demo.bare_row))%nat
  /\ Py.int (cell_txt Demo.bare_row 0) = Some 730%Z
  /\ Mgr.parse_row Demo.bare_row = Raise NoSuchElementException
  /\ well_formed_row (Demo.token_row "730" "DEF456" "" "bot2" "2" false) = true
  /\ Mgr.parse_token_table (Demo.manage_page Demo.broken_rows')
     = Raise NoSuchElementException.
Proof.
  split; [simpl; lia|]. repeat split; reflexivity.
Qed.

Lemma prefix_occurs n : forall h,
  String.prefix n h = true <-> exists post, h = (n ++ post)%string.
Proof.
  induction n as [|a n IH]; intros h; simpl.
  - split; [intros _; exists h; reflexivity|].
    intros _. destruct h; reflexivity.
  - destruct h as [|b h]; simpl.
    + split; [discriminate | intros [post H]; discriminate H].
    + destruct (ascii_dec a b) as [->|Hne].
      * rewrite IH. split; intros [post H]; exists post.
        -- rewrite H. reflexivity.
        -- injection H as H. exact H.
      * split; [discriminate|]. intros [post H]. injection H as Hb _.
        congruence.
Qed.

Lemma str_in_occurs n : forall h,
  Py.str_in n h = true <-> occurs_in n h.
Proof.
  unfold occurs_in. induction h as [|b h IH].
  - change (Py.str_in n "") with (String.prefix n "" || false).
    rewrite orb_false_r, prefix_occurs. split.
    + intros [post H]. exists "", post. exact H.
    + intros (pre & post & H). destruct pre as [|a pre]; [|discriminate H].
      exists post. exact H.
  - change (Py.str_in n (String b h))
      with (String.prefix n (String b h) || Py.str_in n h).
    rewrite orb_true_iff, prefix_occurs, IH. split.
    + intros [[post H]|(pre & post & H)].
      * exists "", post. exact H.
      * exists (String b pre), post. simpl. rewrite H. reflexivity.
    + intros (pre & post & H). destruct pre as [|a pre]; simpl in H.
      * left. exists post. exact H.
      * right. injection H as _ H. exists pre, post. exact H.
Qed.

Lemma not_in_empty : ~ occurs_in "line-through" "".
Proof. intros H. apply str_in_occurs in H. discriminate H. Qed.

Lemma truthy_spec s : Py.truthy s = true <-> s <> "".
Proof.
  unfold Py.truthy. destruct (String.eqb_spec s ""); simpl; split;
    congruence.
Qed.

(** The script's verdict, read off the two style properties. *)
Lemma style_script_spec st :
  Py.str_in "line-through" (Mgr.computed_decoration st) = true
  <-> line_through_style st.
Proof.
  rewrite str_in_occurs. unfold Mgr.computed_decoration, line_through_style,
    decoration_read.
  destruct (textDecorationLine st) as [l|]; simpl.
  - destruct (Py.truthy l) eqn:El.
    + apply truthy_spec in El. split.
      * intros H. exists l. split; [left; auto | exact H].
      * intros (s & [[Hs _]|[[Hn|Hn] _]] & H).
        -- injection Hs as ->. exact H.
        -- discriminate Hn.
        -- injection Hn as ->. contradiction El. reflexivity.
    + assert (Hl : l = "").
      { destruct (String.eqb_spec l "") as [->|Hne]; [reflexivity|].
        apply truthy_spec in Hne. congruence. }
      subst l. destruct (textDecoration st) as [d|]; simpl.
      * destruct (Py.truthy d) eqn:Ed.
        -- apply truthy_spec in Ed. split.
           ++ intros H. exists d. split; [right; auto | exact H].
           ++ intros (s & [[Hs Hne]|[_ [Hs _]]] & H).
              ** injection Hs as <-. contradiction Hne. reflexivity.
              ** injection Hs as ->. exact H.
        -- split; [intros H; destruct (not_in_empty H)|].
           intros (s & [[Hs Hne]|[_ [Hs Hne]]] & H).
           ++ injection Hs as <-. contradiction Hne. reflexivity.
           ++ injection Hs as ->. apply truthy_spec in Hne. congruence.
      * split; [intros H; destruct (not_in_empty H)|].
        intros (s & [[Hs Hne]|[_ [Hs _]]] & H).
        -- injection Hs as <-. contradiction Hne. reflexivity.
        -- discriminate Hs.
  - destruct (textDecoration st) as [d|]; simpl.
    + destruct (Py.truthy d) eqn:Ed.
      * apply truthy_spec in Ed. split.
        -- intros H. exists d. split; [right; auto | exact H].
        -- intros (s & [[Hs _]|[_ [Hs _]]] & H); [discriminate Hs|].
           injection Hs as ->. exact H.
      * split; [intros H; destruct (not_in_empty H)|].
        intros (s & [[Hs _]|[_ [Hs Hne]]] & H); [discriminate Hs|].
        injection Hs as ->. apply truthy_spec in Hne. congruence.
    + split; [intros H; destruct (not_in_empty H)|].
      intros (s & [[Hs _]|[_ [Hs _]]] & H); discriminate Hs.
Qed.

Lemma tag_probe_spec c : Mgr.tag_probe c = Ok true <-> tag_found c.
Proof.
  unfold Mgr.tag_probe, tag_found.
  destruct (cell_s c) as [n|e].
  - destruct (Nat.ltb_spec 0 n) as [Hn|Hn].
    + split; [intros _; left; exists n; auto | reflexivity].
    + destruct (cell_strike c) as [m|e].
      * destruct (Nat.ltb_spec 0 m) as [Hm|Hm].
        -- split; [|reflexivity]. intros _. right.
           split; [f_equal; lia | exists m; auto].
        -- split; [discriminate|].
           intros [(n' & Hn' & Hlt)|(_ & m' & Hm' & Hlt)].
           ++ injection Hn' as <-. lia.
           ++ injection Hm' as <-. lia.
      * split; [discriminate|].
        intros [(n' & Hn' & Hlt)|(_ & m' & Hm' & _)].
        -- injection Hn' as <-. lia.
        -- discriminate Hm'.
  - split; [discriminate|].
    intros [(n' & Hn' & _)|(Hn' & _)]; discriminate Hn'.
Qed.

Lemma style_probe_spec c : Mgr.style_probe c = Ok true <-> style_found c.
Proof.
  unfold Mgr.style_probe, style_found.
  destruct (cell_style c) as [st|e].
  - split.
    + intros H. exists st. split; [reflexivity|]. injection H as H.
      apply style_script_spec, H.
    + intros (st' & Hst & H). injection Hst as <-.
      apply style_script_spec in H. rewrite H. reflexivity.
  - split; [discriminate | intros (st & Hst & _); discriminate Hst].
Qed.

Lemma cell_not_struck_spec c :
  Mgr._cell_not_struck c = false <-> tag_found c \/ style_found c.
Proof.
  rewrite <- tag_probe_spec, <- style_probe_spec.
  unfold Mgr._cell_not_struck.
  destruct (Mgr.tag_probe c) as [[|]|e1];
    destruct (Mgr.style_probe c) as [[|]|e2];
    split; intros H; try reflexivity; try discriminate; auto;
    destruct H as [H|H]; discriminate H.
Qed.

(** C5. The valid flag of a record is the verdict of [_cell_not_struck]
    on the row's second cell. That verdict is false exactly when the
    cell has an [s] or [strike] descendant found by the tag inspection,
    or the style inspection returns a decoration (textDecorationLine, or
    textDecoration when the former is empty) in which [line-through]
    occurs. In every other case it is true, in particular when both
    inspections raise. On a cell where no inspection raises: false
    exactly when the cell has an [s] descendant, a [strike] descendant,
    or such a decoration. *)
Theorem valid_flag_strikethrough :
  (forall r t c,
      Mgr.parse_row r = Ok (Some t) -> nth_error (row_tds r) 1 = Some c ->
      valid t = Mgr._cell_not_struck c)
  /\ (forall c, Mgr._cell_not_struck c = false <-> tag_found c \/ style_found c)
  /\ (forall c, Mgr._cell_not_struck c = true
                <-> ~ tag_found c /\ ~ style_found c)
  /\ (forall c n m st,
        cell_s c = Ok n -> cell_strike c = Ok m -> cell_style c = Ok st ->
        (Mgr._cell_not_struck c = false
         <-> (0 < n)%nat \/ (0 < m)%nat \/ line_through_style st))
  /\ (forall c, tag_inspection_fails c -> style_inspection_fails c ->
                Mgr._cell_not_struck c = true).
Proof.
  assert (Htrue : forall c, Mgr._cell_not_struck c = true
                            <-> ~ tag_found c /\ ~ style_found c).
  { intros c. pose proof (cell_not_struck_spec c) as Hs.
    destruct (Mgr._cell_not_struck c); split.
    - intros _. split; intros H; [assert (Hf : true = false) by (apply Hs; left; exact H)
                                 |assert (Hf : true = false) by (apply Hs; right; exact H)];
        discriminate Hf.
    - reflexivity.
    - discriminate.
    - intros [Ht Hst]. destruct (proj1 Hs eq_refl) as [H|H]; contradiction. }
  split; [|split; [|split; [|split]]].
  - intros r t c Hr Hc. apply parse_row_spec in Hr.
    destruct Hr as (_ & _ & _ & Hv). apply Hv, Hc.
  - apply cell_not_struck_spec.
  - exact Htrue.
  - intros c n m st Hs Hk Hst. rewrite cell_not_struck_spec.
    unfold tag_found, style_found. rewrite Hs, Hk, Hst. split.
    + intros [[(n' & Hn' & Hlt)|(_ & m' & Hm' & Hlt)]|(st' & Hst' & H)].
      * injection Hn' as <-. left; exact Hlt.
      * injection Hm' as <-. right; left; exact Hlt.
      * injection Hst' as <-. right; right; exact H.
    + intros [Hn|[Hm|H]].
      * left. left. exists n. auto.
      * destruct n as [|n'].
        -- left. right. split; [reflexivity | exists m; auto].
        -- left. left. exists (S n'). split; [reflexivity | lia].
      * right. exists st. auto.
  - intros c Ht Hst. apply Htrue. split.
    + intros [(n & Hn & Hlt)|(Hn & m & Hm & Hlt)];
        destruct Ht as [(e & He)|(Hz & e & He)]; try congruence.
      rewrite Hz in Hn. injection Hn as <-. lia.
    + intros (st & Hs & _). destruct Hst as (e & He). congruence.
Qed.

Lemma valid_flag_strikethrough_witness :
  Mgr._cell_not_struck (Demo.struck "DEF456") = false
  /\ Mgr._cell_not_struck (Demo.styled "DEF456") = false
  /\ Mgr._cell_not_struck (Demo.plain "ABC123") = true
  /\ Mgr._cell_not_struck Demo.unreadable = true.
Proof.
  destruct valid_flag_strikethrough as (_ & Hfalse & Htrue & Hclean & Hraise).
  split; [|split; [|split]].
  - apply (Hclean (Demo.struck "DEF456") 1%nat 0%nat Demo.no_decoration
             eq_refl eq_refl eq_refl).
    left. lia.
  - apply (Hclean (Demo.styled "DEF456") 0%nat 0%nat Demo.crossed_out
             eq_refl eq_refl eq_refl).
    right. right. exists "underline line-through". split.
    + right. split; [right; reflexivity | split; [reflexivity | discriminate]].
    + exists "underline ", "". reflexivity.
  - destruct (Mgr._cell_not_struck (Demo.plain "ABC123")) eqn:E; [reflexivity|].
    apply (Hclean (Demo.plain "ABC123") 0%nat 0%nat Demo.no_decoration
             eq_refl eq_refl eq_refl) in E.
    destruct E as [E|[E|(s & [[Hs _]|[[Hn|Hn] _]] & Ho)]];
      [lia | lia | | discriminate Hn | discriminate Hn].
    injection Hs as <-. apply str_in_occurs in Ho. discriminate Ho.
  - apply (Hraise Demo.unreadable).
    + left. exists StaleElementReferenceException. reflexivity.
    + exists TimeoutException. reflexivity.
Defined.

(** C6, as stated, fails: when the first matching form has an empty
    hidden value, the scan goes on and answers with a later form. *)
Lemma steamid_not_from_first_match :
  Mgr._extract_steamid_from_row Demo.uneven_row = Ok "42"
  /\ ~ steamid_of_first_match Demo.uneven_row.
Proof.
  split; [reflexivity|].
  intros H. specialize (H Demo.uneven_actions eq_refl).
  simpl in H. discriminate H.
Qed.

(** C6, amended. For a row with a trailing cell in which every form
    matching an endpoint carries a [steamid] field, extraction returns the
    hidden value of the first matching form whose value is not empty, and
    the empty string when there is no such form; it returns the empty
    string in particular when no form of the cell matches an endpoint. *)
Theorem extract_steamid_first_usable r c :
  Mgr.last_item (row_tds r) = Ok c ->
  (forall f, In f (cell_forms c) -> matching_form f = true ->
             form_steamid f <> None) ->
  Mgr._extract_steamid_from_row r
  = Ok (match find usable_form (cell_forms c) with
        | Some f => hidden_steamid f
        | None => ""
        end)
  /\ ((forall f, In f (cell_forms c) -> matching_form f = false) ->
      Mgr._extract_steamid_from_row r = Ok "").
Proof.
  intros Hc H. unfold Mgr._extract_steamid_from_row. rewrite Hc.
  split; [apply scan_forms_spec, H | apply scan_forms_no_match].
Qed.

Lemma extract_steamid_first_usable_witness :
  Mgr._extract_steamid_from_row Demo.uneven_row
  = Ok (match find usable_form (cell_forms Demo.uneven_actions) with
        | Some f => hidden_steamid f
        | None => ""
        end)
  /\ ((forall f, In f (cell_forms Demo.uneven_actions) -> matching_form f = false) ->
      Mgr._extract_steamid_from_row Demo.uneven_row = Ok "").
Proof.
  apply (extract_steamid_first_usable Demo.uneven_row Demo.uneven_actions).
  - reflexivity.
  - intros f Hin _. simpl in Hin.
    destruct Hin as [<-|[<-|[]]]; discriminate.
Defined.

(** C9, as stated, fails: a row whose first cell reads [0] is scraped
    into a record of appid 0. *)
Lemma appid_zero_scraped :
  Mgr.parse_token_table (Demo.manage_page [Demo.zero_row])
  = Ok [mkToken 0 "ABC123" None "bot1" "1" true]
  /\ ~ appids_positive.
Proof.
  split; [reflexivity|].
  intros H.
  specialize (H (Demo.manage_page [Demo.zero_row]) _
                (mkToken 0 "ABC123" None "bot1" "1" true) eq_refl
                (or_introl eq_refl)).
  simpl in H. lia.
Qed.

(** C9, amended. The appid of every scraped record is the integer that
    [int] reads from the first cell of a body row of five cells or more;
    no sign check is made, so it is positive exactly when that integer
    is. *)
Theorem appid_is_first_cell_integer p toks t :
  Mgr.parse_token_table p = Ok toks -> In t toks ->
  exists r,
    In r (scraped_rows p) /\ (5 <= length (row_tds r))%nat
    /\ Py.int (cell_txt r 0) = Some (appid t).
Proof.
  rewrite parse_token_table_rows. intros H Hin.
  destruct (parse_rows_from _ _ _ H Hin) as (r & Hr & Hp).
  exists r. apply parse_row_spec in Hp. destruct Hp as (Hw & (Hi & _) & _).
  unfold well_formed_row in Hw. apply andb_prop in Hw as [Hl _].
  apply Nat.leb_le in Hl. auto.
Qed.

Lemma appid_is_first_cell_integer_witness :
  exists r,
    In r (scraped_rows (Demo.manage_page [Demo.zero_row]))
    /\ (5 <= length (row_tds r))%nat
    /\ Py.int (cell_txt r 0) = Some 0%Z.
Proof.
  apply (appid_is_first_cell_integer (Demo.manage_page [Demo.zero_row])
           [mkToken 0 "ABC123" None "bot1" "1" true]
           (mkToken 0 "ABC123" None "bot1" "1" true)).
  - reflexivity.
  - left; reflexivity.
Defined.

(** ** Properties of the session *)

Lemma bind_ok_inv {A B} (m : Mgr.M A) (f : A -> Mgr.M B) h b h' :
  Mgr.bind m f h = (Ok b, h') ->
  exists a h1, m h = (Ok a, h1) /\ f a h1 = (Ok b, h').
Proof.
  unfold Mgr.bind. destruct (m h) as [[a|e] h1]; [eauto | discriminate].
Qed.

Lemma bind_run {A B} (m : Mgr.M A) (f : A -> Mgr.M B) h a h1 :
  m h = (Ok a, h1) -> Mgr.bind m f h = f a h1.
Proof. unfold Mgr.bind. intros ->. reflexivity. Qed.

Lemma unit_eta (u : unit) : u = tt.
Proof. destruct u; reflexivity. Qed.

Lemma find_first {A} (f : A -> bool) pre t post :
  (forall u, In u pre -> f u = false) -> f t = true ->
  find f (pre ++ t :: post) = Some t.
Proof.
  induction pre as [|u pre IH]; simpl; intros Hpre Ht.
  - rewrite Ht. reflexivity.
  - rewrite (Hpre u (or_introl eq_refl)). apply IH; auto.
Qed.

Lemma find_none_all {A} (f : A -> bool) xs :
  (forall u, In u xs -> f u = false) -> find f xs = None.
Proof.
  induction xs as [|u xs IH]; simpl; intros H; [reflexivity|].
  rewrite (H u (or_introl eq_refl)). apply IH; auto.
Qed.

Lemma find_some_split {A} (f : A -> bool) xs t :
  find f xs = Some t ->
  exists pre post,
    xs = pre ++ t :: post /\ f t = true /\ forall u, In u pre -> f u = false.
Proof.
  induction xs as [|u xs IH]; simpl; [discriminate|].
  destruct (f u) eqn:E.
  - intros H; inversion H; subst. exists [], xs. simpl. intuition.
  - intros H. destruct (IH H) as (pre & post & -> & Ht & Hpre).
    exists (u :: pre), post. simpl. repeat split; auto.
    intros v [<-|Hv]; auto.
Qed.

Lemma find_none_inv {A} (f : A -> bool) xs :
  find f xs = None -> forall u, In u xs -> f u = false.
Proof.
  induction xs as [|v xs IH]; simpl; intros H u Hin; [destruct Hin|].
  destruct (f v) eqn:E; [discriminate|].
  destruct Hin as [<-|Hin]; auto.
Qed.

Section Quiet.

Variable site : Mgr.Site.
Variable env : Mgr.Env.

Lemma quiet_ret {A} (a : A) : quiet (Mgr.ret a).
Proof. intros h; reflexivity. Qed.

Lemma quiet_raise {A} e : quiet (@Mgr.raise A e).
Proof. intros h; reflexivity. Qed.

Lemma quiet_lift {A} (r : res A) : quiet (Mgr.lift r).
Proof. intros h; reflexivity. Qed.

Lemma quiet_page : quiet (Mgr.page site).
Proof. intros h; reflexivity. Qed.

Lemma quiet_current_url : quiet (Mgr.current_url site).
Proof. intros h; reflexivity. Qed.

Lemma quiet_emit e : Mgr.is_mutation e = false -> quiet (Mgr.emit e).
Proof. intros He h. simpl. unfold Mgr.mutations. simpl. rewrite He. reflexivity. Qed.

Lemma quiet_bind {A B} (m : Mgr.M A) (f : A -> Mgr.M B) :
  quiet m -> (forall a, quiet (f a)) -> quiet (Mgr.bind m f).
Proof.
  intros Hm Hf h. unfold Mgr.bind. specialize (Hm h).
  destruct (m h) as [[a|e] h1]; simpl in *.
  - rewrite Hf. exact Hm.
  - exact Hm.
Qed.

Lemma quiet_try {A} (m handler : Mgr.M A) :
  quiet m -> quiet handler -> quiet (Mgr.try_except m handler).
Proof.
  intros Hm Hh h. unfold Mgr.try_except. specialize (Hm h).
  destruct (m h) as [[a|e] h1]; simpl in *.
  - exact Hm.
  - rewrite Hh. exact Hm.
Qed.

Lemma quiet_wait_loop n cond : quiet (Mgr.wait_loop n cond).
Proof.
  induction n as [|n IH]; intros h; simpl.
  - destruct (cond h); reflexivity.
  - destruct (cond h); [reflexivity|]. rewrite IH. reflexivity.
Qed.

Lemma quiet_wait_until t cond : quiet (Mgr.wait_until t cond).
Proof. apply quiet_wait_loop. Qed.

Ltac quiet_step :=
  first
    [ apply quiet_bind; [|intros ?]
    | apply quiet_try
    | apply quiet_wait_until
    | apply quiet_ret | apply quiet_raise | apply quiet_lift
    | apply quiet_page | apply quiet_current_url
    | apply quiet_emit; reflexivity
    | match goal with
      | |- quiet (if ?b then _ else _) => destruct b
      | |- quiet (match ?x with _ => _ end) => destruct x
      end ].

Lemma quiet_find_element_by_id i : quiet (Mgr.find_element_by_id site i).
Proof. unfold Mgr.find_element_by_id. repeat quiet_step. Qed.

Lemma quiet_guard_block self : quiet (Mgr.guard_block site self).
Proof.
  unfold Mgr.guard_block.
  repeat first [apply quiet_find_element_by_id | quiet_step].
Qed.

Lemma quiet_login_flow self : quiet (Mgr._login_flow site env self).
Proof.
  unfold Mgr._login_flow.
  repeat first [apply quiet_find_element_by_id | apply quiet_guard_block | quiet_step].
Qed.

Lemma quiet_ensure_manage_page self :
  quiet (Mgr._ensure_manage_page site env self).
Proof.
  unfold Mgr._ensure_manage_page.
  repeat first [apply quiet_login_flow | quiet_step].
Qed.

End Quiet.

Section NeverRaises.

Variable site : Mgr.Site.
Variable env : Mgr.Env.
Variable e : exn.

Lemma never_ret {A} (a : A) : never_raises e (Mgr.ret a).
Proof. intros h; simpl; discriminate. Qed.

Lemma never_emit ev : never_raises e (Mgr.emit ev).
Proof. intros h; simpl; discriminate. Qed.

Lemma never_bind {A B} (m : Mgr.M A) (f : A -> Mgr.M B) :
  never_raises e m -> (forall a, never_raises e (f a)) ->
  never_raises e (Mgr.bind m f).
Proof.
  intros Hm Hf h. unfold Mgr.bind. specialize (Hm h).
  destruct (m h) as [[a|e'] h1]; simpl in *; [apply Hf|].
  intros H. apply Hm. inversion H. reflexivity.
Qed.

(** Whatever the body raises, [except Exception] takes it. *)
Lemma never_try {A} (m handler : Mgr.M A) :
  never_raises e handler -> never_raises e (Mgr.try_except m handler).
Proof.
  intros Hh h. unfold Mgr.try_except.
  destruct (m h) as [[a|e'] h1]; simpl; [discriminate | apply Hh].
Qed.

Lemma never_raise_other {A} e' : e' <> e -> never_raises e (@Mgr.raise A e').
Proof. intros Hne h; simpl. congruence. Qed.

Lemma never_find_element_by_id i :
  NoSuchElementException <> e -> never_raises e (Mgr.find_element_by_id site i).
Proof.
  intros Hne h. unfold Mgr.find_element_by_id, Mgr.bind, Mgr.page; simpl.
  destruct (has_id i (Mgr.site_page site h)); simpl; congruence.
Qed.

End NeverRaises.

(** The error raised for a missing guard code never leaves
    [_login_flow]: the enclosing [except Exception: pass] takes it. *)
Lemma login_flow_never_guard_error site env self :
  never_raises (RuntimeError Mgr.guard_required) (Mgr._login_flow site env self).
Proof.
  unfold Mgr._login_flow.
  apply never_bind.
  - apply never_try, never_ret.
  - intros shown. destruct (negb shown); [apply never_ret|].
    destruct (_ || _).
    + apply never_raise_other. intros H. inversion H.
    + repeat first
        [ apply never_try, never_ret
        | apply never_find_element_by_id; discriminate
        | apply never_emit
        | apply never_bind; [|intros ?] ].
      * intros h; simpl; discriminate.
      * destruct (page_submit_button _);
          [apply never_ret | apply never_raise_other; discriminate].
Qed.

(** C2 (evaluation at the failing input). With the guard prompt showing
    and no callback configured, or a callback that returns an empty code,
    [_login_flow] returns normally after the password was submitted: the
    [RuntimeError] raised for the missing code is caught by the
    [except Exception] of the same block, on every site. *)
Theorem login_flow_swallows_guard_error :
  Mgr.presence_of_id Demo.guarded_site "authcode" [] = true
  /\ Mgr._login_flow Demo.guarded_site Demo.creds Demo.no_callback []
     = (Ok tt, [Mgr.Click "button[type='submit']";
                Mgr.SendKeys "input_password" "secret";
                Mgr.SendKeys "input_username" "user"])
  /\ Mgr._login_flow Demo.guarded_site Demo.creds Demo.empty_callback []
     = (Ok tt, [Mgr.Click "button[type='submit']";
                Mgr.SendKeys "input_password" "secret";
                Mgr.SendKeys "input_username" "user"])
  /\ forall site env self h,
       fst (Mgr._login_flow site env self h)
       <> Raise (RuntimeError Mgr.guard_required).
Proof.
  repeat split; try reflexivity.
  intros site env self h. apply login_flow_never_guard_error.
Qed.

Lemma parse_token_table_run site h :
  Mgr._parse_token_table site h
  = (Mgr.parse_token_table (Mgr.site_page site h), h).
Proof.
  unfold Mgr._parse_token_table, Mgr.bind, Mgr.page, Mgr.lift.
  destruct (Mgr.parse_token_table _); reflexivity.
Qed.

Lemma find_ext {A} (f g : A -> bool) xs :
  (forall x, f x = g x) -> find f xs = find g xs.
Proof.
  intros H. induction xs as [|x xs IH]; simpl; [reflexivity|].
  rewrite H, IH. reflexivity.
Qed.

Lemma is_token_valid_run site env self g h h1 toks :
  Mgr._ensure_manage_page site env self h = (Ok tt, h1) ->
  Mgr.parse_token_table (Mgr.site_page site h1) = Ok toks ->
  Mgr.is_token_valid site env self g h
  = (Ok match find (fun t => Mgr.same_token (gslt t) g) toks with
        | Some t => valid t
        | None => false
        end, h1).
Proof.
  intros He Hp. unfold Mgr.is_token_valid.
  rewrite (bind_run _ _ _ _ _ He).
  unfold Mgr.bind at 1. rewrite parse_token_table_run, Hp.
  destruct (find _ toks); reflexivity.
Qed.

(** Once the manage page is ensured and scraped, [is_token_valid g]
    returns the valid flag of the first record whose token equals [g] up
    to letter case; when no record matches it returns [False]. The
    answer depends on [g] only through [g.upper()]. *)
Theorem is_token_valid_scan site env self g h h1 toks :
  Mgr._ensure_manage_page site env self h = (Ok tt, h1) ->
  Mgr.parse_token_table (Mgr.site_page site h1) = Ok toks ->
  (forall pre t post,
      toks = pre ++ t :: post ->
      (forall u, In u pre -> Py.upper (gslt u) <> Py.upper g) ->
      Py.upper (gslt t) = Py.upper g ->
      Mgr.is_token_valid site env self g h = (Ok (valid t), h1))
  /\ ((forall t, In t toks -> Py.upper (gslt t) <> Py.upper g) ->
      Mgr.is_token_valid site env self g h = (Ok false, h1))
  /\ (forall g', Py.upper g' = Py.upper g ->
      Mgr.is_token_valid site env self g' h
      = Mgr.is_token_valid site env self g h).
Proof.
  intros He Hp. split; [|split].
  - intros pre t post -> Hpre Ht.
    rewrite (is_token_valid_run _ _ _ _ _ _ _ He Hp).
    rewrite find_first; [reflexivity| |].
    + intros u Hu. apply String.eqb_neq. apply Hpre, Hu.
    + apply String.eqb_eq, Ht.
  - intros Hno. rewrite (is_token_valid_run _ _ _ _ _ _ _ He Hp).
    rewrite find_none_all; [reflexivity|].
    intros u Hu. apply String.eqb_neq. apply Hno, Hu.
  - intros g' Hg.
    rewrite !(is_token_valid_run _ _ _ _ _ _ _ He Hp).
    rewrite (find_ext (fun t => Mgr.same_token (gslt t) g')
                      (fun t => Mgr.same_token (gslt t) g)); [reflexivity|].
    intros t. unfold Mgr.same_token. rewrite Hg. reflexivity.
Qed.

Lemma is_token_valid_scan_witness :
  Mgr.is_token_valid (Demo.static_site Demo.two_tokens) Demo.creds
    Demo.no_callback "def456" []
  = (Ok false, [Mgr.Get Mgr.MANAGE_URL])
  /\ Mgr.is_token_valid (Demo.static_site Demo.two_tokens) Demo.creds
       Demo.no_callback "ZZZ" []
     = (Ok false, [Mgr.Get Mgr.MANAGE_URL]).
Proof.
  pose proof (is_token_valid_scan (Demo.static_site Demo.two_tokens) Demo.creds
                Demo.no_callback "def456" [] [Mgr.Get Mgr.MANAGE_URL] _
                eq_refl eq_refl) as (Hfirst & _ & _).
  pose proof (is_token_valid_scan (Demo.static_site Demo.two_tokens) Demo.creds
                Demo.no_callback "ZZZ" [] [Mgr.Get Mgr.MANAGE_URL] _
                eq_refl eq_refl) as (_ & Hnone & _).
  split.
  - apply (Hfirst [mkToken 730 "ABC123" None "bot1" "1" true]
                  (mkToken 730 "DEF456" None "bot2" "2" false) []).
    + reflexivity.
    + intros u [<-|[]]. simpl. discriminate.
    + reflexivity.
  - apply Hnone. intros t [<-|[<-|[]]]; simpl; discriminate.
Defined.

(** C7 (evaluation at the failing input). On a page whose table holds a
    row with a reset form lacking the hidden [steamid] field, no row
    bears the token [ZZZ], and yet [is_token_valid "ZZZ"] does not
    return [False]: the scrape raises [NoSuchElementException], which
    reaches the caller. *)
Theorem is_token_valid_raises_on_missing_steamid :
  forallb (fun r => negb (Mgr.same_token (cell_txt r 1) "ZZZ")) Demo.broken_rows
  = true
  /\ Mgr.is_token_valid (Demo.static_site Demo.broken_rows) Demo.creds
       Demo.no_callback "ZZZ" []
     = (Raise NoSuchElementException, [Mgr.Get Mgr.MANAGE_URL]).
Proof. split; reflexivity. Qed.

(** Every scraped record comes from a body row whose second cell holds
    its token. *)
Lemma token_from_row p toks t :
  Mgr.parse_token_table p = Ok toks -> In t toks ->
  exists r c,
    In r (scraped_rows p) /\ nth_error (row_tds r) 1 = Some c
    /\ gslt t = Py.strip (cell_text c).
Proof.
  rewrite parse_token_table_rows. intros H Hin.
  destruct (parse_rows_from _ _ _ H Hin) as (r & Hr & Hp).
  apply parse_row_spec in Hp. destruct Hp as (Hw & (_ & Hg & _) & _).
  unfold well_formed_row in Hw. apply andb_prop in Hw as [Hl _].
  apply Nat.leb_le in Hl.
  unfold cell_txt in Hg.
  destruct (nth_error (row_tds r) 1) as [c|] eqn:Ec.
  - exists r, c. auto.
  - apply nth_error_None in Ec. lia.
Qed.

(** Once the manage page is ensured, if no body row's token equals
    [g] up to letter case, [regenerate_token g] fails there and then: it
    ends in the history the page check left, to which no form submission
    was added, and when the table scrapes the failure is the
    [ValueError] for a token that is not found. *)
Theorem regenerate_unknown_token site env self g h h1 :
  Mgr._ensure_manage_page site env self h = (Ok tt, h1) ->
  (forall r c, In r (scraped_rows (Mgr.site_page site h1)) ->
               nth_error (row_tds r) 1 = Some c ->
               Py.upper (Py.strip (cell_text c)) <> Py.upper g) ->
  exists e,
    Mgr.regenerate_token site env self g h = (Raise e, h1)
    /\ Mgr.mutations h1 = Mgr.mutations h
    /\ (forall toks,
          Mgr.parse_token_table (Mgr.site_page site h1) = Ok toks ->
          e = ValueError Mgr.token_not_found).
Proof.
  intros He Hrows.
  assert (Hq : Mgr.mutations h1 = Mgr.mutations h).
  { pose proof (quiet_ensure_manage_page site env self h) as Hq.
    rewrite He in Hq. exact Hq. }
  unfold Mgr.regenerate_token. rewrite (bind_run _ _ _ _ _ He).
  unfold Mgr.bind at 1. unfold Mgr._find_row_by_token.
  unfold Mgr.bind at 1. rewrite parse_token_table_run.
  destruct (Mgr.parse_token_table (Mgr.site_page site h1)) as [toks|e] eqn:Hp.
  - rewrite find_none_all.
    + exists (ValueError Mgr.token_not_found). simpl. auto.
    + intros t Ht. destruct (token_from_row _ _ _ Hp Ht) as (r & c & Hr & Hc & Hg).
      unfold Mgr.same_token. apply String.eqb_neq. rewrite Hg.
      apply (Hrows r c Hr Hc).
  - exists e. repeat split; auto. intros toks Hc. discriminate Hc.
Qed.

Lemma regenerate_unknown_token_witness :
  exists e,
    Mgr.regenerate_token (Demo.static_site Demo.two_tokens) Demo.creds
      Demo.no_callback "ZZZ" []
    = (Raise e, [Mgr.Get Mgr.MANAGE_URL])
    /\ Mgr.mutations [Mgr.Get Mgr.MANAGE_URL] = Mgr.mutations []
    /\ (forall toks,
          Mgr.parse_token_table
            (Mgr.site_page (Demo.static_site Demo.two_tokens) [Mgr.Get Mgr.MANAGE_URL])
          = Ok toks ->
          e = ValueError Mgr.token_not_found).
Proof.
  apply (regenerate_unknown_token (Demo.static_site Demo.two_tokens) Demo.creds
           Demo.no_callback "ZZZ" [] [Mgr.Get Mgr.MANAGE_URL]).
  - reflexivity.
  - intros r c Hr Hc. simpl in Hr.
    destruct Hr as [<-|[<-|[]]]; inversion Hc; subst; simpl; discriminate.
Defined.

(** C8 (evaluation at the failing input). On a page whose table holds a
    row with a reset form lacking the hidden [steamid] field, no row
    bears the token [ZZZ], and [regenerate_token "ZZZ"] fails without
    submitting anything, but with [NoSuchElementException] from the
    scrape and not with the [ValueError] for a token that is not
    found. *)
Theorem regenerate_token_raises_on_missing_steamid :
  forallb (fun r => negb (Mgr.same_token (cell_txt r 1) "ZZZ")) Demo.broken_rows
  = true
  /\ Mgr.regenerate_token (Demo.static_site Demo.broken_rows) Demo.creds
       Demo.no_callback "ZZZ" []
     = (Raise NoSuchElementException, [Mgr.Get Mgr.MANAGE_URL])
  /\ Mgr.mutations [Mgr.Get Mgr.MANAGE_URL] = []
  /\ NoSuchElementException <> ValueError Mgr.token_not_found.
Proof. repeat split; try reflexivity. discriminate. Qed.

Lemma mem_In s xs : Mgr.mem s xs = true <-> In s xs.
Proof.
  unfold Mgr.mem. rewrite existsb_exists. split.
  - intros (x & Hx & Heq). apply String.eqb_eq in Heq. subst. exact Hx.
  - intros H. exists s. split; [exact H | apply String.eqb_refl].
Qed.

Lemma looks_created_dec before m t :
  (negb (Mgr.mem (gslt t) before) && (memo t =? m)) = true
  <-> looks_created before m t.
Proof.
  unfold looks_created. rewrite andb_true_iff, negb_true_iff, String.eqb_eq.
  split; intros [H1 H2]; split; auto.
  - intros Hin. apply mem_In in Hin. congruence.
  - destruct (Mgr.mem (gslt t) before) eqn:E; [|reflexivity].
    apply mem_In in E. contradiction.
Qed.

Lemma pick_created_spec before after m g :
  Mgr.pick_created before after m = Ok g ->
  (exists pre t post,
      after = pre ++ t :: post /\ g = gslt t /\ looks_created before m t
      /\ forall u, In u pre -> ~ looks_created before m u)
  \/ ((forall u, In u after -> ~ looks_created before m u)
      /\ exists pre t, after = pre ++ [t] /\ g = gslt t).
Proof.
  unfold Mgr.pick_created.
  destruct (find _ after) as [t|] eqn:Ef.
  - intros H; inversion H; subst. left.
    apply find_some_split in Ef as (pre & post & -> & Ht & Hpre).
    exists pre, t, post.
    split; [reflexivity|]. split; [reflexivity|].
    split; [apply looks_created_dec, Ht|].
    intros u Hu Hl. apply looks_created_dec in Hl.
    rewrite (Hpre u Hu) in Hl. discriminate.
  - intros H. right. split.
    + intros u Hu Hl. apply looks_created_dec in Hl.
      rewrite (find_none_inv _ _ Ef u Hu) in Hl. discriminate.
    + destruct (rev after) as [|t l] eqn:Er; [discriminate|].
      inversion H; subst. exists (rev l), t. split; [|reflexivity].
      rewrite <- (rev_involutive after), Er. reflexivity.
Qed.

(** C3, amended. When [create_gslt a m] returns a token, that token is
    the one of a record of appid [a] listed after the submission: the
    first such record whose token was not listed before the submission
    and whose memo is [m], if there is one; otherwise the last record of
    that appid, whose token may have been listed before and whose memo
    may differ. *)
Theorem create_gslt_choice site env self a m h g h' :
  Mgr.create_gslt site env self a m h = (Ok g, h') ->
  exists h1 all h2 h3 h4 listed after,
    Mgr._ensure_manage_page site env self h = (Ok tt, h1)
    /\ Mgr.get_all_tokens site env self None h1 = (Ok all, h2)
    /\ Mgr._fill_create_form site a m h2 = (Ok tt, h3)
    /\ Mgr._ensure_manage_page site env self
         (Mgr.Sleep (Mgr.throttle self) :: h3) = (Ok tt, h4)
    /\ Mgr.get_all_tokens site env self None h4 = (Ok listed, h')
    /\ after = filter (fun t => appid t =? a)%Z listed
    /\ ((exists pre t post,
            after = pre ++ t :: post /\ g = gslt t
            /\ looks_created (map gslt all) m t
            /\ forall u, In u pre -> ~ looks_created (map gslt all) m u)
        \/ ((forall u, In u after -> ~ looks_created (map gslt all) m u)
            /\ exists pre t, after = pre ++ [t] /\ g = gslt t)).
Proof.
  unfold Mgr.create_gslt. intros H.
  apply bind_ok_inv in H as (u1 & h1 & H1 & H).
  apply bind_ok_inv in H as (all & h2 & H2 & H).
  apply bind_ok_inv in H as (u3 & h3 & H3 & H).
  apply bind_ok_inv in H as (u & hs & Hs & H).
  apply bind_ok_inv in H as (u4 & h4 & H4 & H).
  apply bind_ok_inv in H as (listed & h5 & H5 & H).
  unfold Mgr.lift in H. inversion H; subst.
  unfold Mgr.emit in Hs. inversion Hs; subst.
  rewrite (unit_eta u1) in H1. rewrite (unit_eta u3) in H3.
  rewrite (unit_eta u4) in H4.
  exists h1, all, h2, h3, h4, listed, (filter (fun t => appid t =? a)%Z listed).
  repeat (split; [eassumption|]).
  split; [reflexivity|].
  apply pick_created_spec. assumption.
Qed.

Lemma create_gslt_choice_witness :
  exists h1 all h2 h3 h4 listed after,
    Mgr._ensure_manage_page Demo.creating_site Demo.creds Demo.no_callback []
    = (Ok tt, h1)
    /\ Mgr.get_all_tokens Demo.creating_site Demo.creds Demo.no_callback None h1
       = (Ok all, h2)
    /\ Mgr._fill_create_form Demo.creating_site 730 "new" h2 = (Ok tt, h3)
    /\ Mgr._ensure_manage_page Demo.creating_site Demo.creds Demo.no_callback
         (Mgr.Sleep (Mgr.throttle Demo.no_callback) :: h3) = (Ok tt, h4)
    /\ Mgr.get_all_tokens Demo.creating_site Demo.creds Demo.no_callback None h4
       = (Ok listed, Demo.created_history)
    /\ after = filter (fun t => appid t =? 730)%Z listed
    /\ ((exists pre t post,
            after = pre ++ t :: post /\ "GHI789" = gslt t
            /\ looks_created (map gslt all) "new" t
            /\ forall u, In u pre -> ~ looks_created (map gslt all) "new" u)
        \/ ((forall u, In u after -> ~ looks_created (map gslt all) "new" u)
            /\ exists pre t, after = pre ++ [t] /\ "GHI789" = gslt t)).
Proof.
  apply (create_gslt_choice Demo.creating_site Demo.creds Demo.no_callback
           730 "new" [] "GHI789" Demo.created_history).
  reflexivity.
Defined.

(** C3, as stated, fails: on a site whose table is unchanged by the
    submission, [create_gslt] falls back on the last token of the appid,
    which was listed before and carries another memo. *)
Lemma create_returns_listed_token :
  fst (Mgr.create_gslt (Demo.static_site Demo.two_tokens) Demo.creds
         Demo.no_callback 730 "new" [])
  = Ok "DEF456"
  /\ ~ create_returns_fresh_token.
Proof.
  split; [reflexivity|].
  intros H.
  destruct (H (Demo.static_site Demo.two_tokens) Demo.creds Demo.no_callback
              730%Z "new" [] "DEF456" _ _ _ _ eq_refl eq_refl eq_refl)
    as [Hfresh _].
  apply Hfresh. simpl. right; left; reflexivity.
Qed.

(** ** Properties of the shared instance *)

Lemma init_manager_keeps launch kw g m :
  _singleton g = Some m -> init_manager launch kw g = (Ok m, g).
Proof. unfold init_manager. intros ->. reflexivity. Qed.

Lemma init_manager_sets launch kw g m g' :
  init_manager launch kw g = (Ok m, g') -> _singleton g' = Some m.
Proof.
  unfold init_manager, new_manager.
  destruct (_singleton g) as [m0|] eqn:Es.
  - intros H; inversion H; subst. exact Es.
  - destruct (launch kw); intros H; inversion H; subst. reflexivity.
Qed.

Lemma forward_shared {A} launch
    (method : Mgr.Manager -> Mgr.M A) g m h :
  _singleton g = Some m ->
  forward launch method g h = (fst (method m h), g, snd (method m h)).
Proof.
  intros Hs. unfold forward. rewrite (init_manager_keeps _ _ _ _ Hs).
  destruct (method m h); reflexivity.
Qed.

(** C10. Once a call of [init_manager] has returned a manager, every
    later call returns that same instance and leaves the module state as
    it is, whatever keyword arguments it is given (no second browser is
    started); and each module-level operation runs the method of that
    instance, on its session. *)
Theorem init_manager_shared site env launch kw g m g' :
  init_manager launch kw g = (Ok m, g') ->
  (forall kw', init_manager launch kw' g' = (Ok m, g'))
  /\ (forall a memo h,
        create_gslt site env launch a memo g' h
        = (fst (Mgr.create_gslt site env m a memo h), g',
           snd (Mgr.create_gslt site env m a memo h)))
  /\ (forall a h,
        get_all_tokens site env launch a g' h
        = (fst (Mgr.get_all_tokens site env m a h), g',
           snd (Mgr.get_all_tokens site env m a h)))
  /\ (forall t h,
        is_token_valid site env launch t g' h
        = (fst (Mgr.is_token_valid site env m t h), g',
           snd (Mgr.is_token_valid site env m t h)))
  /\ (forall t h,
        regenerate_token site env launch t g' h
        = (fst (Mgr.regenerate_token site env m t h), g',
           snd (Mgr.regenerate_token site env m t h))).
Proof.
  intros H. apply init_manager_sets in H.
  split; [intros kw'; apply init_manager_keeps, H|].
  split; [|split; [|split]].
  - intros a memo h.
    apply (forward_shared launch (fun mgr => Mgr.create_gslt site env mgr a memo)), H.
  - intros a h.
    apply (forward_shared launch (fun mgr => Mgr.get_all_tokens site env mgr a)), H.
  - intros t h.
    apply (forward_shared launch (fun mgr => Mgr.is_token_valid site env mgr t)), H.
  - intros t h.
    apply (forward_shared launch (fun mgr => Mgr.regenerate_token site env mgr t)), H.
Qed.

Lemma init_manager_shared_witness :
  init_manager Demo.launch_ok Demo.other_kwargs Demo.shared_globals
  = (Ok Demo.shared_manager, Demo.shared_globals)
  /\ is_token_valid (Demo.static_site Demo.two_tokens) Demo.creds Demo.launch_ok
       "abc123" Demo.shared_globals []
     = (Ok true, Demo.shared_globals, [Mgr.Get Mgr.MANAGE_URL]).
Proof.
  destruct (init_manager_shared (Demo.static_site Demo.two_tokens) Demo.creds
              Demo.launch_ok default_kwargs (mkGlobals None 0)
              Demo.shared_manager Demo.shared_globals eq_refl)
    as (Hsame & _ & _ & Hvalid & _).
  split.
  - apply Hsame.
  - rewrite Hvalid. reflexivity.
Defined.

(** ** Further properties of the session *)

Section Waits.

Variable site : Mgr.Site.

Lemma wait_loop_history n cond : forall h,
  exists k, snd (Mgr.wait_loop n cond h) = polls k ++ h.
Proof.
  induction n as [|n IH]; intros h; simpl.
  - destruct (cond h); [exists 0%nat | exists 1%nat]; reflexivity.
  - destruct (cond h); [exists 0%nat; reflexivity|].
    destruct (IH (Mgr.Poll :: h)) as [k Hk]. exists (S k). rewrite Hk.
    unfold polls. simpl. rewrite app_comm_cons, repeat_cons, <- app_assoc.
    reflexivity.
Qed.

Lemma wait_loop_ok n cond : forall h u h',
  Mgr.wait_loop n cond h = (Ok u, h') -> cond h' = true.
Proof.
  induction n as [|n IH]; intros h u h'; simpl.
  - destruct (cond h) eqn:E; intros H; inversion H; subst; exact E.
  - destruct (cond h) eqn:E; [intros H; inversion H; subst; exact E|].
    apply IH.
Qed.

Lemma wait_loop_raises n cond : raises_only (eq TimeoutException) (Mgr.wait_loop n cond).
Proof.
  induction n as [|n IH]; intros h e h'; simpl.
  - destruct (cond h); intros H; inversion H; reflexivity.
  - destruct (cond h); [discriminate|]. apply IH.
Qed.

End Waits.

Section RaisesOnly.

Variable site : Mgr.Site.
Variable env : Mgr.Env.

Lemma raises_only_weaken {A} (P Q : exn -> Prop) (m : Mgr.M A) :
  (forall e, P e -> Q e) -> raises_only P m -> raises_only Q m.
Proof. intros HPQ Hm h e h' H. apply HPQ, (Hm h e h' H). Qed.

Lemma raises_only_ret {A} P (a : A) : raises_only P (Mgr.ret a).
Proof. intros h e h' H. discriminate H. Qed.

Lemma raises_only_emit P ev : raises_only P (Mgr.emit ev).
Proof. intros h e h' H. discriminate H. Qed.

Lemma raises_only_page P : raises_only P (Mgr.page site).
Proof. intros h e h' H. discriminate H. Qed.

Lemma raises_only_current_url P : raises_only P (Mgr.current_url site).
Proof. intros h e h' H. discriminate H. Qed.

Lemma raises_only_raise {A} (P : exn -> Prop) e :
  P e -> raises_only P (@Mgr.raise A e).
Proof. intros He h e' h' H. inversion H; subst. exact He. Qed.

Lemma raises_only_bind {A B} P (m : Mgr.M A) (f : A -> Mgr.M B) :
  raises_only P m -> (forall a, raises_only P (f a)) ->
  raises_only P (Mgr.bind m f).
Proof.
  intros Hm Hf h e h'. unfold Mgr.bind.
  destruct (m h) as [[a|e0] h1] eqn:E.
  - apply Hf.
  - intros H. inversion H; subst. apply (Hm h e h' E).
Qed.

Lemma raises_only_try {A} P (m handler : Mgr.M A) :
  raises_only P handler -> raises_only P (Mgr.try_except m handler).
Proof.
  intros Hh h e h'. unfold Mgr.try_except.
  destruct (m h) as [[a|e0] h1]; [discriminate | apply Hh].
Qed.

Lemma raises_only_wait (P : exn -> Prop) t cond :
  P TimeoutException -> raises_only P (Mgr.wait_until t cond).
Proof.
  intros HP. apply (raises_only_weaken (eq TimeoutException)).
  - intros e <-. exact HP.
  - apply wait_loop_raises.
Qed.

Lemma raises_only_find_element_by_id (P : exn -> Prop) i :
  P NoSuchElementException -> raises_only P (Mgr.find_element_by_id site i).
Proof.
  intros HP. unfold Mgr.find_element_by_id.
  apply raises_only_bind; [apply raises_only_page|]. intros p.
  destruct (has_id i p); [apply raises_only_ret | apply raises_only_raise, HP].
Qed.

Lemma raises_only_login_flow self :
  raises_only (fun e => e = RuntimeError Mgr.credentials_missing
                        \/ e = NoSuchElementException)
              (Mgr._login_flow site env self).
Proof.
  unfold Mgr._login_flow.
  apply raises_only_bind; [apply raises_only_try, raises_only_ret|].
  intros shown. destruct (negb shown); [apply raises_only_ret|].
  destruct (_ || _); [apply raises_only_raise; left; reflexivity|].
  repeat first
    [ apply raises_only_try, raises_only_ret
    | apply raises_only_find_element_by_id; right; reflexivity
    | apply raises_only_emit
    | apply raises_only_page
    | apply raises_only_bind; [|intros ?] ].
  destruct (page_submit_button _);
    [apply raises_only_ret | apply raises_only_raise; right; reflexivity].
Qed.

Lemma raises_only_ensure_manage_page self :
  raises_only page_check_error (Mgr._ensure_manage_page site env self).
Proof.
  unfold Mgr._ensure_manage_page.
  apply raises_only_bind; [apply raises_only_emit|]. intros _.
  apply raises_only_bind; [apply raises_only_current_url|]. intros url.
  apply raises_only_bind.
  - destruct (Py.str_in Mgr.LOGIN_HOST url); [|apply raises_only_ret].
    apply raises_only_bind; [|intros; apply raises_only_emit].
    apply (raises_only_weaken _ _ _ (fun e H => or_intror H : page_check_error e)).
    apply raises_only_login_flow.
  - intros _. apply raises_only_wait. left; reflexivity.
Qed.

End RaisesOnly.

(** X1. [_ensure_manage_page] returns only on a page that shows the
    [serverList] container, and it has then submitted no form; when it
    raises, the wait for the container ran out, credentials are missing
    or an element of the login page is. *)
Theorem ensure_manage_page_ready site env self h r h' :
  Mgr._ensure_manage_page site env self h = (r, h') ->
  Mgr.mutations h' = Mgr.mutations h
  /\ match r with
     | Ok _ => page_server_list (Mgr.site_page site h') <> None
     | Raise e => page_check_error e
     end.
Proof.
  intros H. split.
  - pose proof (quiet_ensure_manage_page site env self h) as Hq.
    rewrite H in Hq. exact Hq.
  - destruct r as [u|e].
    + unfold Mgr._ensure_manage_page in H.
      apply bind_ok_inv in H as (u1 & h1 & _ & H).
      apply bind_ok_inv in H as (url & h2 & _ & H).
      apply bind_ok_inv in H as (u3 & h3 & _ & H).
      apply wait_loop_ok in H. unfold Mgr.presence_of_server_list in H.
      destruct (page_server_list _); [discriminate | discriminate H].
    + apply (raises_only_ensure_manage_page site env self h e h' H).
Qed.

Lemma ensure_manage_page_ready_witness :
  Mgr.mutations (snd (Mgr._ensure_manage_page Demo.guarded_site Demo.creds
                        Demo.no_callback []))
  = Mgr.mutations []
  /\ page_check_error TimeoutException.
Proof.
  apply (ensure_manage_page_ready Demo.guarded_site Demo.creds Demo.no_callback
           [] (Raise TimeoutException)
           (snd (Mgr._ensure_manage_page Demo.guarded_site Demo.creds
                   Demo.no_callback []))).
  reflexivity.
Defined.

(** ** Further properties of the scrape *)

Lemma scan_forms_ok fs s :
  Mgr.scan_forms fs = Ok s ->
  s = ""
  \/ exists f, In f fs /\ matching_form f = true
               /\ form_steamid f = Some (Some s).
Proof.
  induction fs as [|f fs IH]; simpl.
  - intros H; inversion H. left; reflexivity.
  - destruct (Mgr.is_mutation_action (Py.or_empty (form_action f))) eqn:Em.
    + destruct (form_steamid f) as [[v|]|] eqn:Ev; simpl.
      * unfold Py.truthy. destruct (v =? "") eqn:Eq; simpl.
        -- intros H. destruct (IH H) as [->|(f' & ? & ? & ?)]; [left; reflexivity|].
           right. exists f'. auto.
        -- intros H; inversion H; subst. right. exists f.
           split; [left; reflexivity|]. split; [exact Em | exact Ev].
      * intros H. destruct (IH H) as [->|(f' & ? & ? & ?)]; [left; reflexivity|].
        right. exists f'. auto.
      * discriminate.
    + intros H. destruct (IH H) as [->|(f' & ? & ? & ?)]; [left; reflexivity|].
      right. exists f'. auto.
Qed.

Lemma scan_forms_raise fs e :
  Mgr.scan_forms fs = Raise e ->
  e = NoSuchElementException
  /\ exists f, In f fs /\ matching_form f = true /\ form_steamid f = None.
Proof.
  induction fs as [|f fs IH]; simpl; [discriminate|].
  destruct (Mgr.is_mutation_action (Py.or_empty (form_action f))) eqn:Em.
  - destruct (form_steamid f) as [v|] eqn:Ev.
    + destruct (Py.truthy_opt v); [discriminate|].
      intros H. destruct (IH H) as (-> & f' & ? & ? & ?).
      split; [reflexivity|]. exists f'. auto.
    + intros H; inversion H; subst. split; [reflexivity|].
      exists f. split; [left; reflexivity|]. split; [exact Em | exact Ev].
  - intros H. destruct (IH H) as (-> & f' & ? & ? & ?).
    split; [reflexivity|]. exists f'. auto.
Qed.

Lemma last_item_raise {A} (xs : list A) e :
  Mgr.last_item xs = Raise e -> e = IndexError /\ xs = [].
Proof.
  unfold Mgr.last_item. destruct (rev xs) as [|x l] eqn:Er; [|discriminate].
  intros H; inversion H. split; [reflexivity|].
  rewrite <- (rev_involutive xs), Er. reflexivity.
Qed.

Lemma extract_steamid_outcomes_raise r e :
  Mgr._extract_steamid_from_row r = Raise e ->
  (e = IndexError /\ row_tds r = []) \/ e = NoSuchElementException.
Proof.
  unfold Mgr._extract_steamid_from_row.
  destruct (Mgr.last_item (row_tds r)) as [c|e'] eqn:El.
  - intros H. apply scan_forms_raise in H as [-> _]. right; reflexivity.
  - intros H. injection H as <-. left. apply last_item_raise, El.
Qed.

Lemma scan_forms_passed f fs :
  form_passed f -> Mgr.scan_forms (f :: fs) = Mgr.scan_forms fs.
Proof.
  unfold form_passed, matching_form. simpl.
  intros [Hm|(v & Hv & Ht)].
  - rewrite Hm. reflexivity.
  - rewrite Hv, Ht. destruct (Mgr.is_mutation_action _); reflexivity.
Qed.

Lemma scan_forms_past pre fs :
  Forall form_passed pre -> Mgr.scan_forms (pre ++ fs) = Mgr.scan_forms fs.
Proof.
  induction 1 as [|f pre Hf Hpre IH]; [reflexivity|].
  simpl app. rewrite scan_forms_passed; assumption.
Qed.

Lemma scan_forms_all_passed fs :
  Forall form_passed fs -> Mgr.scan_forms fs = Ok "".
Proof.
  intros H. rewrite <- (app_nil_r fs). rewrite scan_forms_past; auto.
Qed.

Lemma scan_forms_stops_none f post :
  matching_form f = true -> form_steamid f = None ->
  Mgr.scan_forms (f :: post) = Raise NoSuchElementException.
Proof. unfold matching_form. simpl. intros -> ->. reflexivity. Qed.

Lemma scan_forms_stops_value f post s :
  matching_form f = true -> form_steamid f = Some (Some s) -> s <> "" ->
  Mgr.scan_forms (f :: post) = Ok s.
Proof.
  unfold matching_form. simpl. intros -> -> Hs. simpl.
  apply truthy_spec in Hs. rewrite Hs. reflexivity.
Qed.

(** The loop either goes past every form or stops at a first one. *)
Lemma scan_forms_cases fs :
  Forall form_passed fs
  \/ exists pre f post,
       fs = pre ++ f :: post /\ Forall form_passed pre
       /\ matching_form f = true
       /\ (form_steamid f = None
           \/ exists s, form_steamid f = Some (Some s) /\ s <> "").
Proof.
  induction fs as [|f fs IH]; [left; constructor|].
  assert (Hf : form_passed f
               \/ (matching_form f = true
                   /\ (form_steamid f = None
                       \/ exists s, form_steamid f = Some (Some s) /\ s <> ""))).
  { unfold form_passed. destruct (matching_form f); [|left; left; reflexivity].
    destruct (form_steamid f) as [[s|]|].
    - destruct (String.eqb_spec s "") as [->|Hne].
      + left. right. exists (Some ""). split; reflexivity.
      + right. split; [reflexivity|]. right. exists s. auto.
    - left. right. exists None. split; reflexivity.
    - right. split; [reflexivity | left; reflexivity]. }
  destruct Hf as [Hp|(Hm & Hs)].
  - destruct IH as [Hall|(pre & f0 & post & -> & Hpre & Hrest)].
    + left. constructor; assumption.
    + right. exists (f :: pre), f0, post.
      split; [reflexivity|]. split; [constructor; assumption | exact Hrest].
  - right. exists [], f, fs. split; [reflexivity|]. split; [constructor|]. auto.
Qed.

(** X2. [_extract_steamid_from_row] is settled by the first form of the
    trailing cell that names a mutation endpoint and either lacks the
    [steamid] field or carries a non-empty value. It raises [IndexError]
    exactly on a row without cells. Otherwise it returns a non-empty
    string exactly when that form carries it as its hidden value, raises
    exactly when that form lacks the field, and then with
    [NoSuchElementException], and returns the empty string exactly when
    there is no such form. *)
Theorem extract_steamid_outcomes r :
  (Mgr._extract_steamid_from_row r = Raise IndexError <-> row_tds r = [])
  /\ forall c, Mgr.last_item (row_tds r) = Ok c ->
       (Mgr._extract_steamid_from_row r = Ok ""
        <-> Forall form_passed (cell_forms c))
       /\ (forall s, s <> "" ->
             (Mgr._extract_steamid_from_row r = Ok s
              <-> exists pre f post,
                    cell_forms c = pre ++ f :: post /\ Forall form_passed pre
                    /\ matching_form f = true
                    /\ form_steamid f = Some (Some s)))
       /\ (forall e,
             Mgr._extract_steamid_from_row r = Raise e
             <-> e = NoSuchElementException
                 /\ exists pre f post,
                      cell_forms c = pre ++ f :: post /\ Forall form_passed pre
                      /\ matching_form f = true /\ form_steamid f = None).
Proof.
  split.
  - split.
    + intros H. destruct (extract_steamid_outcomes_raise r _ H) as [[_ Hn]|Hn];
        [exact Hn | discriminate Hn].
    + unfold Mgr._extract_steamid_from_row. intros ->. reflexivity.
  - intros c Hc. unfold Mgr._extract_steamid_from_row. rewrite Hc.
    pose proof (scan_forms_cases (cell_forms c)) as Hcases.
    split; [|split].
    + split; [|apply scan_forms_all_passed].
      intros Hs. destruct Hcases as [Hall|(pre & f & post & Heq & Hpre & Hm & Hstop)];
        [exact Hall|].
      rewrite Heq, (scan_forms_past _ _ Hpre) in Hs.
      destruct Hstop as [Hn|(s & Hv & Hne)].
      * rewrite (scan_forms_stops_none _ _ Hm Hn) in Hs. discriminate Hs.
      * rewrite (scan_forms_stops_value _ _ _ Hm Hv Hne) in Hs.
        injection Hs as Hs. contradiction.
    + intros s Hne. split.
      * intros Hs.
        destruct Hcases as [Hall|(pre & f & post & Heq & Hpre & Hm & Hstop)].
        -- rewrite (scan_forms_all_passed _ Hall) in Hs. injection Hs as Hs.
           congruence.
        -- exists pre, f, post. repeat (split; [assumption|]).
           rewrite Heq, (scan_forms_past _ _ Hpre) in Hs.
           destruct Hstop as [Hn|(s' & Hv & Hne')].
           ++ rewrite (scan_forms_stops_none _ _ Hm Hn) in Hs. discriminate Hs.
           ++ rewrite (scan_forms_stops_value _ _ _ Hm Hv Hne') in Hs.
              injection Hs as <-. exact Hv.
      * intros (pre & f & post & Heq & Hpre & Hm & Hv).
        rewrite Heq, (scan_forms_past _ _ Hpre).
        apply (scan_forms_stops_value _ _ _ Hm Hv Hne).
    + intros e. split.
      * intros Hs.
        destruct Hcases as [Hall|(pre & f & post & Heq & Hpre & Hm & Hstop)].
        -- rewrite (scan_forms_all_passed _ Hall) in Hs. discriminate Hs.
        -- rewrite Heq, (scan_forms_past _ _ Hpre) in Hs.
           destruct Hstop as [Hn|(s' & Hv & Hne')].
           ++ rewrite (scan_forms_stops_none _ _ Hm Hn) in Hs.
              injection Hs as <-. split; [reflexivity|].
              exists pre, f, post. auto.
           ++ rewrite (scan_forms_stops_value _ _ _ Hm Hv Hne') in Hs.
              discriminate Hs.
      * intros (-> & pre & f & post & Heq & Hpre & Hm & Hn).
        rewrite Heq, (scan_forms_past _ _ Hpre).
        apply (scan_forms_stops_none _ _ Hm Hn).
Qed.

Lemma extract_steamid_outcomes_witness :
  Mgr._extract_steamid_from_row Demo.uneven_row = Ok "42"
  /\ Mgr._extract_steamid_from_row Demo.bare_row = Raise NoSuchElementException
  /\ Mgr._extract_steamid_from_row (mkRow []) = Raise IndexError.
Proof.
  split; [|split].
  - apply (proj2 (extract_steamid_outcomes Demo.uneven_row)
             Demo.uneven_actions eq_refl).
    + discriminate.
    + exists [mkForm (Demo.endpoint "resetgstoken") (Some (Some ""))],
             (mkForm (Demo.endpoint "deletegsaccount") (Some (Some "42"))), [].
      split; [reflexivity|]. split; [|split; reflexivity].
      constructor; [|constructor]. right. exists (Some ""). split; reflexivity.
  - apply (proj2 (extract_steamid_outcomes Demo.bare_row)
             Demo.bare_actions eq_refl).
    split; [reflexivity|].
    exists [], (mkForm (Demo.endpoint "resetgstoken") None), [].
    split; [reflexivity|]. split; [constructor | split; reflexivity].
  - apply (proj1 (extract_steamid_outcomes (mkRow []))). reflexivity.
Defined.

Lemma parse_row_raise r e :
  Mgr.parse_row r = Raise e ->
  e = NoSuchElementException /\ (5 <= length (row_tds r))%nat
  /\ Mgr._extract_steamid_from_row r = Raise NoSuchElementException.
Proof.
  unfold Mgr.parse_row.
  destruct (row_tds r) as [|td0 [|td1 [|td2 [|td3 [|td4 tds]]]]] eqn:Et;
    try discriminate.
  destruct (Mgr._extract_steamid_from_row r) as [sid|e'] eqn:Ee.
  - destruct (Py.int _); discriminate.
  - intros H; inversion H; subst.
    destruct (extract_steamid_outcomes_raise r e Ee) as [[_ Hnil]| ->].
    + rewrite Et in Hnil. discriminate Hnil.
    + repeat split. simpl. lia.
Qed.

Lemma parse_row_raises r :
  (5 <= length (row_tds r))%nat ->
  Mgr._extract_steamid_from_row r = Raise NoSuchElementException ->
  Mgr.parse_row r = Raise NoSuchElementException.
Proof.
  unfold Mgr.parse_row. intros Hl He.
  destruct (row_tds r) as [|td0 [|td1 [|td2 [|td3 [|td4 tds]]]]];
    simpl in Hl; try lia.
  rewrite He. reflexivity.
Qed.

Lemma parse_rows_raise_kind rows e :
  Mgr.parse_rows rows = Raise e -> e = NoSuchElementException.
Proof.
  induction rows as [|r rows IH]; simpl; [discriminate|].
  destruct (Mgr.parse_row r) as [o|e'] eqn:Er.
  - destruct (Mgr.parse_rows rows) as [toks|e'']; [discriminate|].
    intros H; inversion H; subst. apply IH. reflexivity.
  - intros H; inversion H; subst. apply (parse_row_raise r e Er).
Qed.

Lemma parse_token_table_raise_kind p e :
  Mgr.parse_token_table p = Raise e -> e = NoSuchElementException.
Proof. rewrite parse_token_table_rows. apply parse_rows_raise_kind. Qed.

(** X3. The scrape raises exactly when steamid extraction raises on some
    body row of five cells or more, and the exception is then
    [NoSuchElementException]: a short row, a first cell that is no
    integer, a missing container or a missing table never make it
    raise. *)
Theorem parse_token_table_raises_iff p e :
  Mgr.parse_token_table p = Raise e
  <-> e = NoSuchElementException
      /\ exists r, In r (scraped_rows p) /\ (5 <= length (row_tds r))%nat
                   /\ Mgr._extract_steamid_from_row r
                      = Raise NoSuchElementException.
Proof.
  rewrite parse_token_table_rows. generalize (scraped_rows p) as rows.
  induction rows as [|r rows IH]; simpl.
  - split; [discriminate | intros (_ & r & [] & _)].
  - destruct (Mgr.parse_row r) as [o|e'] eqn:Er.
    + destruct (Mgr.parse_rows rows) as [toks|e''] eqn:Ers.
      * split; [discriminate|].
        intros (-> & r' & [<-|Hin] & Hl & He).
        -- rewrite (parse_row_raises _ Hl He) in Er. discriminate Er.
        -- assert (Hc : Ok toks = Raise NoSuchElementException :> res (list Token)).
           { apply IH. split; [reflexivity|]. exists r'. auto. }
           discriminate Hc.
      * split.
        -- intros H. apply IH in H as (-> & r' & ? & ? & ?).
           split; [reflexivity|]. exists r'. auto.
        -- intros (-> & r' & [<-|Hin] & Hl & He).
           ++ rewrite (parse_row_raises _ Hl He) in Er. discriminate Er.
           ++ apply IH. split; [reflexivity|]. exists r'. auto.
    + apply parse_row_raise in Er as (-> & Hl & He). split.
      * intros H; inversion H; subst. split; [reflexivity|].
        exists r. auto.
      * intros (-> & _). reflexivity.
Qed.

(** ** Further properties of the session: reading and signing in *)

Section Reading.

Variable site : Mgr.Site.
Variable env : Mgr.Env.

Lemma raises_only_lift_parse p :
  raises_only page_check_error (Mgr.lift (Mgr.parse_token_table p)).
Proof.
  intros h e h' H. unfold Mgr.lift in H. inversion H as [[Hp Hh]].
  apply parse_token_table_raise_kind in Hp as ->.
  right; right; reflexivity.
Qed.

Lemma raises_only_parse :
  raises_only page_check_error (Mgr._parse_token_table site).
Proof.
  unfold Mgr._parse_token_table.
  apply raises_only_bind; [apply raises_only_page|].
  intros p. apply raises_only_lift_parse.
Qed.

Lemma quiet_parse : quiet (Mgr._parse_token_table site).
Proof.
  unfold Mgr._parse_token_table.
  apply quiet_bind; [apply quiet_page | intros; apply quiet_lift].
Qed.

Lemma quiet_get_all_tokens self a : quiet (Mgr.get_all_tokens site env self a).
Proof.
  unfold Mgr.get_all_tokens.
  apply quiet_bind; [apply quiet_ensure_manage_page|]. intros _.
  apply quiet_bind; [apply quiet_parse|]. intros tokens.
  destruct a; apply quiet_ret.
Qed.

Lemma raises_only_get_all_tokens self a :
  raises_only page_check_error (Mgr.get_all_tokens site env self a).
Proof.
  unfold Mgr.get_all_tokens.
  apply raises_only_bind; [apply raises_only_ensure_manage_page|]. intros _.
  apply raises_only_bind; [apply raises_only_parse|]. intros tokens.
  destruct a; apply raises_only_ret.
Qed.

Lemma has_token_table_run h :
  Mgr._has_token_table site h = (Ok (shows_table (Mgr.site_page site h)), h).
Proof.
  unfold Mgr._has_token_table, Mgr.bind, Mgr.page, shows_table.
  destruct (page_server_list (Mgr.site_page site h)) as [[|t ts]|]; reflexivity.
Qed.

Lemma quiet_has_token_table : quiet (Mgr._has_token_table site).
Proof. intros h. rewrite has_token_table_run. reflexivity. Qed.

Lemma quiet_interactive_loop n : quiet (Mgr.interactive_loop site n).
Proof.
  induction n as [|n IH]; simpl; [apply quiet_raise|].
  apply quiet_bind; [apply quiet_emit; reflexivity|]. intros _.
  apply quiet_bind; [apply quiet_current_url|]. intros url.
  destruct (negb _); [|exact IH].
  apply quiet_bind; [apply quiet_emit; reflexivity|]. intros _.
  apply quiet_bind; [apply quiet_has_token_table|]. intros found.
  destruct found; [apply quiet_ret | exact IH].
Qed.

Lemma quiet_ensure_signed_in self interactive timeout :
  quiet (Mgr.ensure_signed_in site env self interactive timeout).
Proof.
  unfold Mgr.ensure_signed_in.
  apply quiet_bind; [apply quiet_emit; reflexivity|]. intros _.
  apply quiet_bind; [apply quiet_has_token_table|]. intros found.
  destruct found; [apply quiet_ret|].
  apply quiet_bind.
  - destruct (_ && _); [|apply quiet_ret].
    apply quiet_bind; [apply quiet_login_flow|]. intros _.
    apply quiet_bind; [apply quiet_emit; reflexivity|]. intros _.
    apply quiet_has_token_table.
  - intros signed. destruct signed; [apply quiet_ret|].
    destruct (negb interactive); [apply quiet_raise|].
    apply quiet_bind; [apply quiet_emit; reflexivity|]. intros _.
    apply quiet_interactive_loop.
Qed.

Lemma interactive_loop_ok n : forall h u h',
  Mgr.interactive_loop site n h = (Ok u, h') ->
  shows_table (Mgr.site_page site h') = true.
Proof.
  induction n as [|n IH]; intros h u h'; simpl; [discriminate|].
  intros H.
  apply bind_ok_inv in H as (u1 & h1 & _ & H).
  apply bind_ok_inv in H as (url & h2 & _ & H).
  destruct (negb _); [|apply (IH _ _ _ H)].
  apply bind_ok_inv in H as (u3 & h3 & _ & H).
  apply bind_ok_inv in H as (found & h4 & Hf & H).
  rewrite has_token_table_run in Hf. inversion Hf; subst.
  destruct (shows_table (Mgr.site_page site h4)) eqn:E.
  - inversion H; subst. exact E.
  - apply (IH _ _ _ H).
Qed.

End Reading.

(** X4. The read operations [get_all_tokens] and [is_token_valid] never
    submit a form, on any site and whether they return or raise; and
    they raise only what the page check and the scrape raise: the wait
    for the container ran out, credentials are missing, or an element is
    missing. *)
Theorem read_operations_submit_nothing site env self :
  (forall a, quiet (Mgr.get_all_tokens site env self a)
             /\ raises_only page_check_error (Mgr.get_all_tokens site env self a))
  /\ (forall g, quiet (Mgr.is_token_valid site env self g)
                /\ raises_only page_check_error (Mgr.is_token_valid site env self g)).
Proof.
  split.
  - intros a. split; [apply quiet_get_all_tokens | apply raises_only_get_all_tokens].
  - intros g. unfold Mgr.is_token_valid. split.
    + apply quiet_bind; [apply quiet_ensure_manage_page|]. intros _.
      apply quiet_bind; [apply quiet_parse|]. intros tokens.
      destruct (find _ tokens); apply quiet_ret.
    + apply raises_only_bind; [apply raises_only_ensure_manage_page|]. intros _.
      apply raises_only_bind; [apply raises_only_parse|]. intros tokens.
      destruct (find _ tokens); apply raises_only_ret.
Qed.



(** X6. [ensure_signed_in] submits no form, and when it returns the page
    shows a table under the [serverList] container, in either mode and
    for any timeout. *)
Theorem ensure_signed_in_table site env self interactive timeout h r h' :
  Mgr.ensure_signed_in site env self interactive timeout h = (r, h') ->
  Mgr.mutations h' = Mgr.mutations h
  /\ (is_ok r = true -> shows_table (Mgr.site_page site h') = true).
Proof.
  intros H. split.
  - pose proof (quiet_ensure_signed_in site env self interactive timeout h) as Hq.
    rewrite H in Hq. exact Hq.
  - destruct r as [u|e]; [intros _ | discriminate].
    unfold Mgr.ensure_signed_in in H.
    apply bind_ok_inv in H as (u1 & h1 & _ & H).
    apply bind_ok_inv in H as (found & h2 & Hf & H).
    rewrite has_token_table_run in Hf. inversion Hf; subst.
    destruct (shows_table (Mgr.site_page site h2)) eqn:E.
    { inversion H; subst. exact E. }
    apply bind_ok_inv in H as (signed & h3 & Hs & H).
    destruct signed.
    + inversion H; subst.
      destruct (_ && _); [|discriminate Hs].
      apply bind_ok_inv in Hs as (u4 & h4 & _ & Hs).
      apply bind_ok_inv in Hs as (u5 & h5 & _ & Hs).
      rewrite has_token_table_run in Hs. injection Hs as Ht Hh.
      rewrite <- Hh. exact Ht.
    + destruct (negb interactive); [discriminate H|].
      apply bind_ok_inv in H as (u6 & h6 & _ & H).
      apply (interactive_loop_ok _ _ _ _ _ H).
Qed.

Lemma ensure_signed_in_table_witness :
  Mgr.mutations [Mgr.Get Mgr.MANAGE_URL] = Mgr.mutations []
  /\ (is_ok (Ok tt) = true ->
      shows_table (Mgr.site_page (Demo.static_site Demo.two_tokens)
                     [Mgr.Get Mgr.MANAGE_URL]) = true).
Proof.
  apply (ensure_signed_in_table (Demo.static_site Demo.two_tokens) Demo.creds
           Demo.no_callback false 180 [] (Ok tt) [Mgr.Get Mgr.MANAGE_URL]).
  reflexivity.
Defined.

(** ** Further properties of the session: creating *)

Lemma bind_inv {A B} (m : Mgr.M A) (f : A -> Mgr.M B) h r h' :
  Mgr.bind m f h = (r, h') ->
  (exists e, m h = (Raise e, h') /\ r = Raise e)
  \/ exists a h1, m h = (Ok a, h1) /\ f a h1 = (r, h').
Proof.
  unfold Mgr.bind. destruct (m h) as [[a|e] h1].
  - intros H. right. eauto.
  - intros H. inversion H; subst. left. eauto.
Qed.

Lemma quiet_run {A} (m : Mgr.M A) h r h' :
  quiet m -> m h = (r, h') -> Mgr.mutations h' = Mgr.mutations h.
Proof. intros Hq H. specialize (Hq h). rewrite H in Hq. exact Hq. Qed.

Lemma mutations_polls k h : Mgr.mutations (polls k ++ h) = Mgr.mutations h.
Proof.
  induction k as [|k IH]; simpl; [reflexivity | exact IH].
Qed.

Section Creating.

Variable site : Mgr.Site.
Variable env : Mgr.Env.

Lemma find_create_field_inv field h r h' :
  Mgr.find_create_field site field h = (r, h') ->
  h' = h
  /\ (r = Ok tt \/ r = Raise NoSuchElementException
      \/ r = Raise StaleElementReferenceException).
Proof.
  unfold Mgr.find_create_field, Mgr.bind, Mgr.page, Mgr.ret, Mgr.raise.
  destruct (page_create_form (Mgr.site_page site h)) as [form|].
  - destruct (field form); intros H; inversion H; subst; auto.
  - intros H; inversion H; subst; auto.
Qed.

Lemma quiet_find_create_field field : quiet (Mgr.find_create_field site field).
Proof.
  intros h. destruct (Mgr.find_create_field site field h) as [r h'] eqn:E.
  apply find_create_field_inv in E as [-> _]. reflexivity.
Qed.

(** The history a completed [_fill_create_form] leaves. *)
Lemma fill_create_form_ok a m h u h' :
  Mgr._fill_create_form site a m h = (Ok u, h') ->
  exists k,
    h' = Mgr.Submit Mgr.CreateAccountForm
         :: Mgr.SendKeys "memo" m :: Mgr.Clear "memo"
         :: Mgr.SendKeys "appid" (Py.str a) :: Mgr.Clear "appid"
         :: polls k ++ h.
Proof.
  unfold Mgr._fill_create_form. intros H.
  apply bind_ok_inv in H as (u0 & h0 & Hw & H).
  destruct (wait_loop_history (2 * Mgr.DEFAULT_TIMEOUT - 1)
              (Mgr.presence_of_create_form site) h) as [k Hk].
  unfold Mgr.wait_until in Hw. rewrite Hw in Hk. simpl in Hk. subst h0.
  apply bind_ok_inv in H as (u1 & h1 & H1 & H).
  apply find_create_field_inv in H1 as [-> _].
  apply bind_ok_inv in H as (u2 & h2 & H2 & H). inversion H2; subst.
  apply bind_ok_inv in H as (u3 & h3 & H3 & H).
  apply find_create_field_inv in H3 as [-> _].
  apply bind_ok_inv in H as (u4 & h4 & H4 & H). inversion H4; subst.
  apply bind_ok_inv in H as (u5 & h5 & H5 & H).
  apply find_create_field_inv in H5 as [-> _].
  apply bind_ok_inv in H as (u6 & h6 & H6 & H). inversion H6; subst.
  apply bind_ok_inv in H as (u7 & h7 & H7 & H).
  apply find_create_field_inv in H7 as [-> _].
  apply bind_ok_inv in H as (u8 & h8 & H8 & H). inversion H8; subst.
  inversion H; subst. exists k. reflexivity.
Qed.

Lemma fill_create_form_raise a m h e h' :
  Mgr._fill_create_form site a m h = (Raise e, h') ->
  Mgr.mutations h' = Mgr.mutations h
  /\ (e = TimeoutException \/ e = NoSuchElementException
      \/ e = StaleElementReferenceException).
Proof.
  unfold Mgr._fill_create_form. intros H.
  apply bind_inv in H as [(e0 & Hw & He)|(u0 & h0 & Hw & H)].
  { inversion He; subst. split.
    - apply (quiet_run _ _ _ _ (quiet_wait_until _ _) Hw).
    - left. symmetry. apply (wait_loop_raises _ _ _ _ _ Hw). }
  pose proof (quiet_run _ _ _ _ (quiet_wait_until _ _) Hw) as Q0.
  assert (Hfield : forall field hh r hh',
             Mgr.find_create_field site field hh = (r, hh') ->
             hh' = hh /\ (r = Ok tt \/ r = Raise NoSuchElementException
                          \/ r = Raise StaleElementReferenceException))
    by (intros; eapply find_create_field_inv; eassumption).
  assert (Hfail : forall r : res unit,
             (r = Ok tt \/ r = Raise NoSuchElementException
                          \/ r = Raise StaleElementReferenceException) ->
             r = Raise e ->
             e = TimeoutException \/ e = NoSuchElementException
             \/ e = StaleElementReferenceException :> exn).
  { intros r [-> | [-> | ->]] Hr; inversion Hr; auto. }
  apply bind_inv in H as [(e1 & H1 & He)|(u1 & h1 & H1 & H)].
  { inversion He; subst. apply Hfield in H1 as [-> Hr].
    split; [exact Q0 | apply (Hfail _ Hr eq_refl)]. }
  apply Hfield in H1 as [-> _].
  apply bind_inv in H as [(e2 & H2 & He)|(u2 & h2 & H2 & H)]; [discriminate H2|].
  inversion H2; subst.
  apply bind_inv in H as [(e1 & H1 & He)|(u3 & h3 & H1 & H)].
  { inversion He; subst. apply Hfield in H1 as [-> Hr].
    split; [exact Q0 | apply (Hfail _ Hr eq_refl)]. }
  apply Hfield in H1 as [-> _].
  apply bind_inv in H as [(e2 & H3 & He)|(u4 & h4 & H3 & H)]; [discriminate H3|].
  inversion H3; subst.
  apply bind_inv in H as [(e1 & H1 & He)|(u5 & h5 & H1 & H)].
  { inversion He; subst. apply Hfield in H1 as [-> Hr].
    split; [exact Q0 | apply (Hfail _ Hr eq_refl)]. }
  apply Hfield in H1 as [-> _].
  apply bind_inv in H as [(e2 & H4 & He)|(u6 & h6 & H4 & H)]; [discriminate H4|].
  inversion H4; subst.
  apply bind_inv in H as [(e1 & H1 & He)|(u7 & h7 & H1 & H)].
  { inversion He; subst. apply Hfield in H1 as [-> Hr].
    split; [exact Q0 | apply (Hfail _ Hr eq_refl)]. }
  apply Hfield in H1 as [-> _].
  apply bind_inv in H as [(e2 & H5 & He)|(u8 & h8 & H5 & H)]; [discriminate H5|].
  discriminate H.
Qed.

End Creating.

(** X7. [_fill_create_form] submits the creation form last: when it
    returns, it has waited for the form, cleared and filled [appid] with
    [str(appid)], cleared and filled [memo] with the memo, and then
    submitted, in this order and nothing else; when it raises (the form
    did not show, or a field is missing) nothing was submitted. *)
Theorem fill_create_form_outcome site a m h r h' :
  Mgr._fill_create_form site a m h = (r, h') ->
  match r with
  | Ok _ =>
      exists k,
        h' = Mgr.Submit Mgr.CreateAccountForm
             :: Mgr.SendKeys "memo" m :: Mgr.Clear "memo"
             :: Mgr.SendKeys "appid" (Py.str a) :: Mgr.Clear "appid"
             :: polls k ++ h
  | Raise e =>
      Mgr.mutations h' = Mgr.mutations h
      /\ (e = TimeoutException \/ e = NoSuchElementException
          \/ e = StaleElementReferenceException)
  end.
Proof.
  destruct r as [u|e]; intros H.
  - apply (fill_create_form_ok site a m h u h' H).
  - apply (fill_create_form_raise site a m h e h' H).
Qed.

Lemma fill_create_form_outcome_witness :
  exists k,
    snd (Mgr._fill_create_form (Demo.static_site Demo.two_tokens) 730 "new" [])
    = Mgr.Submit Mgr.CreateAccountForm
      :: Mgr.SendKeys "memo" "new" :: Mgr.Clear "memo"
      :: Mgr.SendKeys "appid" (Py.str 730) :: Mgr.Clear "appid"
      :: polls k ++ [].
Proof.
  apply (fill_create_form_outcome (Demo.static_site Demo.two_tokens) 730 "new"
           [] (Ok tt)).
  reflexivity.
Defined.

Lemma page_check_not_create_failed :
  ~ page_check_error (RuntimeError Mgr.create_failed).
Proof. intros [H|[H|H]]; discriminate H. Qed.

Lemma pick_created_raise before after m e :
  Mgr.pick_created before after m = Raise e ->
  e = RuntimeError Mgr.create_failed /\ after = [].
Proof.
  unfold Mgr.pick_created. destruct (find _ after); [discriminate|].
  destruct (rev after) as [|t l] eqn:Er; [|discriminate].
  intros H; inversion H. split; [reflexivity|].
  rewrite <- (rev_involutive after), Er. reflexivity.
Qed.

Lemma get_all_tokens_listing site env self h listed h' :
  Mgr.get_all_tokens site env self None h = (Ok listed, h') ->
  Mgr.parse_token_table (Mgr.site_page site h') = Ok listed.
Proof.
  unfold Mgr.get_all_tokens. intros H.
  apply bind_ok_inv in H as (u & h1 & _ & H).
  apply bind_ok_inv in H as (tokens & h2 & Hp & H).
  rewrite parse_token_table_run in Hp. injection Hp as Hp Hh.
  unfold Mgr.ret in H. injection H as Hl Hh'. subst. exact Hp.
Qed.

Lemma filter_nil_none {A} (f : A -> bool) xs :
  filter f xs = [] -> forall x, In x xs -> f x = false.
Proof.
  intros Hf x Hx. destruct (f x) eqn:E; [|reflexivity].
  assert (Hin : In x (filter f xs)) by (apply filter_In; auto).
  rewrite Hf in Hin. destruct Hin.
Qed.

(** X8. [create_gslt] submits the creation form at most once and
    submits nothing else. When it returns a token the form was submitted
    exactly once. When it raises the [RuntimeError] for a failed
    creation, the form was submitted and the table scraped last lists no
    token of the requested appid. *)
Theorem create_gslt_submits_once site env self a m h r h' :
  Mgr.create_gslt site env self a m h = (r, h') ->
  match r with
  | Ok _ =>
      Mgr.mutations h' = Mgr.Submit Mgr.CreateAccountForm :: Mgr.mutations h
  | Raise e =>
      (Mgr.mutations h' = Mgr.mutations h
       \/ Mgr.mutations h'
          = Mgr.Submit Mgr.CreateAccountForm :: Mgr.mutations h)
      /\ (e = RuntimeError Mgr.create_failed ->
          Mgr.mutations h'
          = Mgr.Submit Mgr.CreateAccountForm :: Mgr.mutations h
          /\ exists listed,
               Mgr.parse_token_table (Mgr.site_page site h') = Ok listed
               /\ forall t, In t listed -> appid t <> a)
  end.
Proof.
  unfold Mgr.create_gslt. intros H.
  assert (Hnf : forall e, page_check_error e -> e <> RuntimeError Mgr.create_failed).
  { intros e He ->. apply page_check_not_create_failed, He. }
  apply bind_inv in H as [(e & H1 & ->)|(u1 & h1 & H1 & H)].
  { split; [left; apply (quiet_run _ _ _ _ (quiet_ensure_manage_page _ _ _) H1)|].
    intros ->. exfalso.
    apply (Hnf _ (raises_only_ensure_manage_page _ _ _ _ _ _ H1) eq_refl). }
  pose proof (quiet_run _ _ _ _ (quiet_ensure_manage_page _ _ _) H1) as Q1.
  apply bind_inv in H as [(e & H2 & ->)|(all & h2 & H2 & H)].
  { split; [left; rewrite (quiet_run _ _ _ _ (quiet_get_all_tokens _ _ _ _) H2);
            exact Q1|].
    intros ->. exfalso.
    apply (Hnf _ (raises_only_get_all_tokens _ _ _ _ _ _ _ H2) eq_refl). }
  pose proof (quiet_run _ _ _ _ (quiet_get_all_tokens _ _ _ _) H2) as Q2.
  apply bind_inv in H as [(e & H3 & ->)|(u3 & h3 & H3 & H)].
  { apply fill_create_form_raise in H3 as [Q3 He].
    split; [left; congruence|].
    intros ->. destruct He as [He|[He|He]]; discriminate He. }
  apply fill_create_form_ok in H3 as [k ->].
  assert (Q3 : Mgr.mutations
                 (Mgr.Submit Mgr.CreateAccountForm
                  :: Mgr.SendKeys "memo" m :: Mgr.Clear "memo"
                  :: Mgr.SendKeys "appid" (Py.str a) :: Mgr.Clear "appid"
                  :: polls k ++ h2)
               = Mgr.Submit Mgr.CreateAccountForm :: Mgr.mutations h).
  { unfold Mgr.mutations at 1. simpl. fold (Mgr.mutations (polls k ++ h2)).
    rewrite mutations_polls. congruence. }
  apply bind_inv in H as [(e & H4 & ->)|(u4 & h4 & H4 & H)]; [discriminate H4|].
  inversion H4; subst h4.
  assert (Q4 : Mgr.mutations
                 (Mgr.Sleep (Mgr.throttle self)
                  :: Mgr.Submit Mgr.CreateAccountForm
                  :: Mgr.SendKeys "memo" m :: Mgr.Clear "memo"
                  :: Mgr.SendKeys "appid" (Py.str a) :: Mgr.Clear "appid"
                  :: polls k ++ h2)
               = Mgr.Submit Mgr.CreateAccountForm :: Mgr.mutations h)
    by exact Q3.
  apply bind_inv in H as [(e & H5 & ->)|(u5 & h5 & H5 & H)].
  { pose proof (quiet_run _ _ _ _ (quiet_ensure_manage_page _ _ _) H5) as Q5.
    split; [right; congruence|]. intros ->. exfalso.
    apply (Hnf _ (raises_only_ensure_manage_page _ _ _ _ _ _ H5) eq_refl). }
  pose proof (quiet_run _ _ _ _ (quiet_ensure_manage_page _ _ _) H5) as Q5.
  apply bind_inv in H as [(e & H6 & ->)|(listed & h6 & H6 & H)].
  { pose proof (quiet_run _ _ _ _ (quiet_get_all_tokens _ _ _ _) H6) as Q6.
    split; [right; congruence|]. intros ->. exfalso.
    apply (Hnf _ (raises_only_get_all_tokens _ _ _ _ _ _ _ H6) eq_refl). }
  pose proof (quiet_run _ _ _ _ (quiet_get_all_tokens _ _ _ _) H6) as Q6.
  assert (Q : Mgr.mutations h6
              = Mgr.Submit Mgr.CreateAccountForm :: Mgr.mutations h) by congruence.
  unfold Mgr.lift in H. injection H as Hp Hh. subst h'.
  destruct r as [g|e]; [exact Q|].
  split; [right; exact Q|]. intros _. split; [exact Q|].
  exists listed. split; [apply (get_all_tokens_listing _ _ _ _ _ _ H6)|].
  apply pick_created_raise in Hp as [_ Hnil].
  intros t Ht Heq.
  pose proof (filter_nil_none _ _ Hnil t Ht) as Hf. simpl in Hf.
  apply Z.eqb_neq in Hf. contradiction.
Qed.

Lemma create_gslt_submits_once_witness :
  Mgr.mutations Demo.created_history
  = Mgr.Submit Mgr.CreateAccountForm :: Mgr.mutations [].
Proof.
  apply (create_gslt_submits_once Demo.creating_site Demo.creds Demo.no_callback
           730 "new" [] (Ok "GHI789") Demo.created_history).
  reflexivity.
Defined.

(** ** Further properties of the session: finding rows and regenerating *)

Lemma passed_over_nil g : passed_over g [].
Proof. intros r []. Qed.

Lemma passed_over_cons g r c pre :
  nth_error (row_tds r) 1 = Some c ->
  Py.upper (Py.strip (cell_text c)) <> Py.upper g ->
  passed_over g pre -> passed_over g (r :: pre).
Proof.
  intros Hc Hne Hpre r' [<-|Hin]; [exists c; auto | apply Hpre, Hin].
Qed.

Lemma row_by_token_spec g rows :
  match Mgr.row_by_token g rows with
  | Ok (Some r) =>
      exists pre post c,
        rows = pre ++ r :: post /\ nth_error (row_tds r) 1 = Some c
        /\ Py.upper (Py.strip (cell_text c)) = Py.upper g
        /\ passed_over g pre
  | Ok None => passed_over g rows
  | Raise e =>
      e = IndexError
      /\ exists pre r post,
           rows = pre ++ r :: post /\ (length (row_tds r) < 2)%nat
           /\ passed_over g pre
  end.
Proof.
  induction rows as [|r rows IH]; simpl.
  - apply passed_over_nil.
  - unfold Mgr.item.
    destruct (nth_error (row_tds r) 1) as [c|] eqn:Ec.
    + unfold Mgr.same_token.
      destruct (String.eqb_spec (Py.upper (Py.strip (cell_text c))) (Py.upper g))
        as [Heq|Hne].
      * exists [], rows, c.
        split; [reflexivity|]. split; [exact Ec|]. split; [exact Heq|].
        apply passed_over_nil.
      * destruct (Mgr.row_by_token g rows) as [[r0|]|e].
        -- destruct IH as (pre & post & c0 & -> & Hc0 & Hm & Hpre).
           exists (r :: pre), post, c0.
           split; [reflexivity|]. split; [exact Hc0|]. split; [exact Hm|].
           apply (passed_over_cons g r c pre Ec Hne Hpre).
        -- apply (passed_over_cons g r c rows Ec Hne IH).
        -- destruct IH as (-> & pre & r0 & post & -> & Hl & Hpre).
           split; [reflexivity|]. exists (r :: pre), r0, post.
           split; [reflexivity|]. split; [exact Hl|].
           apply (passed_over_cons g r c pre Ec Hne Hpre).
    + split; [reflexivity|]. exists [], r, rows.
      apply nth_error_None in Ec.
      split; [reflexivity|]. split; [lia|]. apply passed_over_nil.
Qed.

Lemma row_by_steamid_some sid rows r :
  Mgr.row_by_steamid sid rows = Ok (Some r) ->
  In r rows /\ Mgr._extract_steamid_from_row r = Ok sid.
Proof.
  induction rows as [|r0 rows IH]; simpl; [discriminate|].
  destruct (Mgr._extract_steamid_from_row r0) as [s|e] eqn:Ee; [|discriminate].
  destruct (String.eqb_spec s sid) as [->|Hne].
  - intros H; inversion H; subst. auto.
  - intros H. destruct (IH H). auto.
Qed.

Section Regenerating.

Variable site : Mgr.Site.
Variable env : Mgr.Env.

Lemma table_body_run h :
  Mgr.table_body site h
  = (match page_server_list (Mgr.site_page site h) with
     | Some (table :: _) => Ok (table_rows table)
     | _ => Raise NoSuchElementException
     end, h).
Proof.
  unfold Mgr.table_body, Mgr.bind, Mgr.page.
  destruct (page_server_list (Mgr.site_page site h)) as [[|t ts]|]; reflexivity.
Qed.

Lemma table_body_ok h rows h' :
  Mgr.table_body site h = (Ok rows, h') ->
  h' = h /\ rows = scraped_rows (Mgr.site_page site h).
Proof.
  rewrite table_body_run. unfold scraped_rows.
  destruct (page_server_list (Mgr.site_page site h)) as [[|t ts]|];
    intros H; inversion H; auto.
Qed.

Lemma quiet_table_body : quiet (Mgr.table_body site).
Proof. intros h. rewrite table_body_run. reflexivity. Qed.

Lemma quiet_find_row_by_token g : quiet (Mgr._find_row_by_token site g).
Proof.
  unfold Mgr._find_row_by_token.
  apply quiet_bind; [apply quiet_parse|]. intros tokens.
  destruct (find _ tokens); [|apply quiet_ret].
  apply quiet_bind; [apply quiet_table_body | intros; apply quiet_lift].
Qed.

Lemma quiet_find_row_by_steamid sid : quiet (Mgr._find_row_by_steamid site sid).
Proof.
  unfold Mgr._find_row_by_steamid.
  apply quiet_bind; [apply quiet_table_body | intros; apply quiet_lift].
Qed.

(** What [regenerate_token] does once the reset form is submitted. *)
Lemma quiet_after_reset self sid :
  quiet (Mgr.bind (Mgr.emit (Mgr.Sleep (Mgr.throttle self + 1500)))
           (fun _ =>
            Mgr.bind (Mgr._ensure_manage_page site env self)
              (fun _ =>
               Mgr.bind (Mgr._find_row_by_steamid site sid)
                 (fun new_row =>
                  match new_row with
                  | None =>
                      Mgr.bind (Mgr.emit (Mgr.Sleep (Mgr.throttle self)))
                        (fun _ =>
                         Mgr.bind (Mgr._parse_token_table site)
                           (fun all_tokens =>
                            match find (fun t => steamid t =? sid) all_tokens with
                            | Some t => Mgr.ret (gslt t)
                            | None => Mgr.raise (RuntimeError Mgr.post_regen_missing)
                            end))
                  | Some new_row =>
                      Mgr.bind (Mgr.lift (Mgr.item 1 (row_tds new_row)))
                        (fun td => Mgr.ret (Py.strip (cell_text td)))
                  end)))).
Proof.
  apply quiet_bind; [apply quiet_emit; reflexivity|]. intros _.
  apply quiet_bind; [apply quiet_ensure_manage_page|]. intros _.
  apply quiet_bind; [apply quiet_find_row_by_steamid|]. intros [nr|].
  - apply quiet_bind; [apply quiet_lift | intros; apply quiet_ret].
  - apply quiet_bind; [apply quiet_emit; reflexivity|]. intros _.
    apply quiet_bind; [apply quiet_parse|]. intros toks.
    destruct (find _ toks); [apply quiet_ret | apply quiet_raise].
Qed.

End Regenerating.

(** X9. [regenerate_token] submits at most one form, and only a form
    whose action names the reset endpoint; when it returns a token that
    form was submitted exactly once. When nothing was submitted the call
    has raised. *)
Theorem regenerate_token_submits_reset_only site env self g h r h' :
  Mgr.regenerate_token site env self g h = (r, h') ->
  (Mgr.mutations h' = Mgr.mutations h /\ is_ok r = false)
  \/ exists f,
       Mgr.mutations h' = Mgr.Submit (Mgr.RowForm f) :: Mgr.mutations h
       /\ is_reset_form f = true.
Proof.
  unfold Mgr.regenerate_token. intros H.
  apply bind_inv in H as [(e & H1 & ->)|(u1 & h1 & H1 & H)].
  { left. split; [|reflexivity].
    apply (quiet_run _ _ _ _ (quiet_ensure_manage_page _ _ _) H1). }
  pose proof (quiet_run _ _ _ _ (quiet_ensure_manage_page _ _ _) H1) as Q1.
  apply bind_inv in H as [(e & H2 & ->)|(row & h2 & H2 & H)].
  { left. split; [|reflexivity].
    rewrite (quiet_run _ _ _ _ (quiet_find_row_by_token _ _) H2). exact Q1. }
  pose proof (quiet_run _ _ _ _ (quiet_find_row_by_token _ _) H2) as Q2.
  destruct row as [row|].
  2:{ unfold Mgr.raise in H. injection H as <- <-.
      left. split; [congruence | reflexivity]. }
  apply bind_inv in H as [(e & H3 & ->)|(sid & h3 & H3 & H)].
  { left. split; [|reflexivity].
    rewrite (quiet_run _ _ _ _ (quiet_lift _) H3). congruence. }
  pose proof (quiet_run _ _ _ _ (quiet_lift _) H3) as Q3.
  apply bind_inv in H as [(e & H4 & ->)|(cell & h4 & H4 & H)].
  { left. split; [|reflexivity].
    rewrite (quiet_run _ _ _ _ (quiet_lift _) H4). congruence. }
  pose proof (quiet_run _ _ _ _ (quiet_lift _) H4) as Q4.
  destruct (find _ (cell_forms cell)) as [f|] eqn:Ef.
  2:{ unfold Mgr.raise in H. injection H as <- <-.
      left. split; [congruence | reflexivity]. }
  apply bind_inv in H as [(e & H5 & ->)|(u5 & h5 & H5 & H)]; [discriminate H5|].
  unfold Mgr.emit in H5. injection H5 as _ <-.
  right. exists f. split.
  - rewrite (quiet_run _ _ _ _ (quiet_after_reset site env self sid) H).
    unfold Mgr.mutations at 1. simpl. fold (Mgr.mutations h4). congruence.
  - apply find_some in Ef as [_ Ef]. exact Ef.
Qed.

Lemma regenerate_token_submits_reset_only_witness :
  (Mgr.mutations
     (snd (Mgr.regenerate_token (Demo.static_site Demo.two_tokens) Demo.creds
             Demo.no_callback "abc123" []))
   = Mgr.mutations []
   /\ is_ok (Ok "ABC123") = false)
  \/ exists f,
       Mgr.mutations
         (snd (Mgr.regenerate_token (Demo.static_site Demo.two_tokens) Demo.creds
                 Demo.no_callback "abc123" []))
       = Mgr.Submit (Mgr.RowForm f) :: Mgr.mutations []
       /\ is_reset_form f = true.
Proof.
  apply (regenerate_token_submits_reset_only (Demo.static_site Demo.two_tokens)
           Demo.creds Demo.no_callback "abc123" [] (Ok "ABC123")).
  reflexivity.
Defined.

Lemma token_row_steamid p toks t :
  Mgr.parse_token_table p = Ok toks -> In t toks ->
  exists r c,
    In r (scraped_rows p) /\ nth_error (row_tds r) 1 = Some c
    /\ gslt t = Py.strip (cell_text c)
    /\ Mgr._extract_steamid_from_row r = Ok (steamid t).
Proof.
  rewrite parse_token_table_rows. intros H Hin.
  destruct (parse_rows_from _ _ _ H Hin) as (r & Hr & Hp).
  apply parse_row_spec in Hp. destruct Hp as (Hw & (_ & Hg & _) & He & _).
  unfold well_formed_row in Hw. apply andb_prop in Hw as [Hl _].
  apply Nat.leb_le in Hl. unfold cell_txt in Hg.
  destruct (nth_error (row_tds r) 1) as [c|] eqn:Ec.
  - exists r, c. auto.
  - apply nth_error_None in Ec. lia.
Qed.

Lemma find_row_by_token_some site g h r h' :
  Mgr._find_row_by_token site g h = (Ok (Some r), h') ->
  h' = h
  /\ exists pre post c,
       scraped_rows (Mgr.site_page site h) = pre ++ r :: post
       /\ nth_error (row_tds r) 1 = Some c
       /\ Py.upper (Py.strip (cell_text c)) = Py.upper g
       /\ passed_over g pre.
Proof.
  unfold Mgr._find_row_by_token. intros H.
  apply bind_ok_inv in H as (toks & h1 & Hp & H).
  rewrite parse_token_table_run in Hp. injection Hp as _ <-.
  destruct (find _ toks); [|discriminate H].
  apply bind_ok_inv in H as (rows & h2 & Hb & H).
  apply table_body_ok in Hb as [-> ->].
  unfold Mgr.lift in H. injection H as Hr <-.
  split; [reflexivity|].
  pose proof (row_by_token_spec g (scraped_rows (Mgr.site_page site h))) as Hs.
  rewrite Hr in Hs. exact Hs.
Qed.

(** X10. The token [regenerate_token] returns is read from a row of the
    page it ends on whose hidden steamid equals the steamid extracted,
    before the submission, from the first row whose token equals the
    argument up to letter case: rows are correlated across the reload by
    steamid, not by token. *)
Theorem regenerate_token_same_steamid site env self g h g' h' :
  Mgr.regenerate_token site env self g h = (Ok g', h') ->
  exists h1 row0 c0 sid r c,
    Mgr._ensure_manage_page site env self h = (Ok tt, h1)
    /\ In row0 (scraped_rows (Mgr.site_page site h1))
    /\ nth_error (row_tds row0) 1 = Some c0
    /\ Py.upper (Py.strip (cell_text c0)) = Py.upper g
    /\ Mgr._extract_steamid_from_row row0 = Ok sid
    /\ In r (scraped_rows (Mgr.site_page site h'))
    /\ Mgr._extract_steamid_from_row r = Ok sid
    /\ nth_error (row_tds r) 1 = Some c
    /\ g' = Py.strip (cell_text c).
Proof.
  unfold Mgr.regenerate_token. intros H.
  apply bind_ok_inv in H as (u1 & h1 & H1 & H). rewrite (unit_eta u1) in H1.
  apply bind_ok_inv in H as (row & h2 & H2 & H).
  destruct row as [row0|]; [|discriminate H].
  apply find_row_by_token_some in H2 as (-> & pre & post & c0 & Hrows & Hc0 & Hm & _).
  apply bind_ok_inv in H as (sid & h3 & H3 & H).
  unfold Mgr.lift in H3. injection H3 as Hsid <-.
  apply bind_ok_inv in H as (cell & h4 & H4 & H).
  unfold Mgr.lift in H4. injection H4 as _ <-.
  destruct (find _ (cell_forms cell)) as [f|]; [|discriminate H].
  apply bind_ok_inv in H as (u5 & h5 & _ & H).
  apply bind_ok_inv in H as (u6 & h6 & _ & H).
  apply bind_ok_inv in H as (u7 & h7 & _ & H).
  apply bind_ok_inv in H as (new_row & h8 & H8 & H).
  unfold Mgr._find_row_by_steamid in H8.
  apply bind_ok_inv in H8 as (rows & h9 & Hb & H8).
  apply table_body_ok in Hb as [-> ->].
  unfold Mgr.lift in H8. injection H8 as Hnr <-.
  assert (Hin0 : In row0 (scraped_rows (Mgr.site_page site h1))).
  { rewrite Hrows. apply in_or_app. right. left. reflexivity. }
  destruct new_row as [nr|].
  - apply bind_ok_inv in H as (td & h10 & Htd & H).
    unfold Mgr.lift in Htd. injection Htd as Htd <-.
    unfold Mgr.ret in H. injection H as <- <-.
    apply row_by_steamid_some in Hnr as [Hin He].
    unfold Mgr.item in Htd.
    destruct (nth_error (row_tds nr) 1) as [c|] eqn:Ec; [|discriminate Htd].
    injection Htd as <-.
    exists h1, row0, c0, sid, nr, c. repeat (split; [assumption|]). reflexivity.
  - apply bind_ok_inv in H as (u10 & h10 & Hs & H).
    unfold Mgr.emit in Hs. injection Hs as _ <-.
    apply bind_ok_inv in H as (toks & h11 & Hp & H).
    rewrite parse_token_table_run in Hp. injection Hp as Hp <-.
    destruct (find _ toks) as [t|] eqn:Ef; [|discriminate H].
    unfold Mgr.ret in H. injection H as <- <-.
    apply find_some in Ef as [Ht Hst]. apply String.eqb_eq in Hst.
    destruct (token_row_steamid _ _ _ Hp Ht) as (r & c & Hr & Hc & Hg & He).
    rewrite Hst in He.
    exists h1, row0, c0, sid, r, c. repeat (split; [assumption|]). exact Hg.
Qed.

Lemma regenerate_token_same_steamid_witness :
  exists h1 row0 c0 sid r c,
    Mgr._ensure_manage_page (Demo.static_site Demo.two_tokens) Demo.creds
      Demo.no_callback [] = (Ok tt, h1)
    /\ In row0 (scraped_rows (Mgr.site_page (Demo.static_site Demo.two_tokens) h1))
    /\ nth_error (row_tds row0) 1 = Some c0
    /\ Py.upper (Py.strip (cell_text c0)) = Py.upper "def456"
    /\ Mgr._extract_steamid_from_row row0 = Ok sid
    /\ In r (scraped_rows
               (Mgr.site_page (Demo.static_site Demo.two_tokens)
                  (snd (Mgr.regenerate_token (Demo.static_site Demo.two_tokens)
                          Demo.creds Demo.no_callback "def456" []))))
    /\ Mgr._extract_steamid_from_row r = Ok sid
    /\ nth_error (row_tds r) 1 = Some c
    /\ "DEF456" = Py.strip (cell_text c).
Proof.
  apply (regenerate_token_same_steamid (Demo.static_site Demo.two_tokens)
           Demo.creds Demo.no_callback "def456" [] "DEF456").
  reflexivity.
Defined.

Lemma find_row_by_token_run site g h :
  Mgr._find_row_by_token site g h
  = (match Mgr.parse_token_table (Mgr.site_page site h) with
     | Raise e => Raise e
     | Ok toks =>
         match find (fun t => Mgr.same_token (gslt t) g) toks with
         | None => Ok None
         | Some _ =>
             match page_server_list (Mgr.site_page site h) with
             | Some (table :: _) => Mgr.row_by_token g (table_rows table)
             | _ => Raise NoSuchElementException
             end
         end
     end, h).
Proof.
  unfold Mgr._find_row_by_token, Mgr.bind at 1.
  rewrite parse_token_table_run.
  destruct (Mgr.parse_token_table (Mgr.site_page site h)) as [toks|e];
    [|reflexivity].
  destruct (find _ toks) as [tok|]; [|reflexivity].
  unfold Mgr.bind. rewrite table_body_run.
  destruct (page_server_list (Mgr.site_page site h)) as [[|tb ts]|];
    reflexivity.
Qed.

Lemma row_by_token_past g pre rows :
  passed_over g pre ->
  Mgr.row_by_token g (pre ++ rows) = Mgr.row_by_token g rows.
Proof.
  induction pre as [|r pre IH]; intros Hpre; [reflexivity|].
  destruct (Hpre r (or_introl eq_refl)) as (c & Hc & Hne).
  simpl. unfold Mgr.item. rewrite Hc. unfold Mgr.same_token.
  apply String.eqb_neq in Hne. rewrite Hne.
  apply IH. intros r' Hr'. apply Hpre. right. exact Hr'.
Qed.

Lemma row_by_token_first g pre r post c :
  passed_over g pre -> nth_error (row_tds r) 1 = Some c ->
  Py.upper (Py.strip (cell_text c)) = Py.upper g ->
  Mgr.row_by_token g (pre ++ r :: post) = Ok (Some r).
Proof.
  intros Hpre Hc Hm. rewrite (row_by_token_past _ _ _ Hpre).
  simpl. unfold Mgr.item. rewrite Hc. unfold Mgr.same_token.
  apply String.eqb_eq in Hm. rewrite Hm. reflexivity.
Qed.

Lemma row_by_token_short g pre r post :
  passed_over g pre -> (length (row_tds r) < 2)%nat ->
  Mgr.row_by_token g (pre ++ r :: post) = Raise IndexError.
Proof.
  intros Hpre Hl. rewrite (row_by_token_past _ _ _ Hpre).
  simpl. unfold Mgr.item.
  destruct (nth_error (row_tds r) 1) as [c|] eqn:Ec; [|reflexivity].
  assert (Hsome : nth_error (row_tds r) 1 <> None) by congruence.
  apply nth_error_Some in Hsome. lia.
Qed.

(** X11. [_find_row_by_token] changes nothing, and its result is
    settled by the scrape and the body rows. It raises
    [NoSuchElementException] exactly when the scrape raises, and returns
    [None] exactly when the scrape returns and lists no token equal to
    the argument up to letter case. When the scrape lists one, it goes
    through the body rows whose second cell differs: it returns a row
    exactly when that row comes next with a second cell equal to the
    token up to letter case, and raises [IndexError] exactly when the
    next row has fewer than two cells. *)
Theorem find_row_by_token_outcomes site g h :
  snd (Mgr._find_row_by_token site g h) = h
  /\ (fst (Mgr._find_row_by_token site g h) = Raise NoSuchElementException
      <-> exists e, Mgr.parse_token_table (Mgr.site_page site h) = Raise e)
  /\ (fst (Mgr._find_row_by_token site g h) = Ok None
      <-> exists toks,
            Mgr.parse_token_table (Mgr.site_page site h) = Ok toks
            /\ forall t, In t toks -> Py.upper (gslt t) <> Py.upper g)
  /\ (forall r,
        fst (Mgr._find_row_by_token site g h) = Ok (Some r)
        <-> token_listed (Mgr.site_page site h) g
            /\ exists pre post c,
                 scraped_rows (Mgr.site_page site h) = pre ++ r :: post
                 /\ passed_over g pre
                 /\ nth_error (row_tds r) 1 = Some c
                 /\ Py.upper (Py.strip (cell_text c)) = Py.upper g)
  /\ (fst (Mgr._find_row_by_token site g h) = Raise IndexError
      <-> token_listed (Mgr.site_page site h) g
          /\ exists pre r post,
               scraped_rows (Mgr.site_page site h) = pre ++ r :: post
               /\ passed_over g pre /\ (length (row_tds r) < 2)%nat)
  /\ (forall e, fst (Mgr._find_row_by_token site g h) = Raise e ->
                e = NoSuchElementException \/ e = IndexError).
Proof.
  rewrite find_row_by_token_run. simpl fst. simpl snd.
  split; [reflexivity|].
  unfold token_listed.
  pose proof (row_by_token_spec g (scraped_rows (Mgr.site_page site h))) as Hs.
  pose proof (token_row_steamid (Mgr.site_page site h)) as Hrow.
  pose proof (parse_token_table_raise_kind (Mgr.site_page site h)) as Hraise.
  destruct (Mgr.parse_token_table (Mgr.site_page site h)) as [toks|e].
  2:{ rewrite (Hraise e eq_refl).
      split; [split; [intros _; eexists; reflexivity | reflexivity]|].
      split; [split; [discriminate | intros (toks & Hc & _); discriminate Hc]|].
      split; [intros r; split;
              [discriminate | intros ((toks & t & Hc & _) & _); discriminate Hc]|].
      split; [split; [discriminate
                     | intros ((toks & t & Hc & _) & _); discriminate Hc]|].
      intros e' He'. injection He' as <-. left; reflexivity. }
  destruct (find _ toks) as [t|] eqn:Ef.
  2:{ assert (Hno : forall t, In t toks -> Py.upper (gslt t) <> Py.upper g).
      { intros t Ht. apply String.eqb_neq. apply (find_none_inv _ _ Ef t Ht). }
      assert (Hnl : ~ exists toks0 t,
                      Ok toks = Ok toks0 /\ In t toks0
                      /\ Py.upper (gslt t) = Py.upper g).
      { intros (toks0 & t & Hc & Ht & Hm). injection Hc as <-.
        apply (Hno t Ht Hm). }
      split; [split; [discriminate | intros (e & He); discriminate He]|].
      split; [split; [intros _; exists toks; auto | reflexivity]|].
      split; [intros r; split; [discriminate | intros (Hl & _); contradiction]|].
      split; [split; [discriminate | intros (Hl & _); contradiction]|].
      intros e He. discriminate He. }
  apply find_some in Ef as [Ht Hm]. apply String.eqb_eq in Hm.
  assert (Hl : exists toks0 t0,
             Ok toks = Ok toks0 /\ In t0 toks0
             /\ Py.upper (gslt t0) = Py.upper g)
    by (exists toks, t; auto).
  destruct (Hrow toks t eq_refl Ht) as (r0 & c0 & Hr0 & Hc0 & Hg0 & _).
  assert (Hnot : ~ passed_over g (scraped_rows (Mgr.site_page site h))).
  { intros Hp. destruct (Hp r0 Hr0) as (c' & Hc' & Hne).
    rewrite Hc0 in Hc'. injection Hc' as <-. apply Hne. rewrite <- Hg0. exact Hm. }
  assert (Hbody :
            match page_server_list (Mgr.site_page site h) with
            | Some (table :: _) => Mgr.row_by_token g (table_rows table)
            | _ => Raise NoSuchElementException
            end = Mgr.row_by_token g (scraped_rows (Mgr.site_page site h))).
  { unfold scraped_rows in Hr0 |- *.
    destruct (page_server_list (Mgr.site_page site h)) as [[|tb tbs]|];
      try destruct Hr0; reflexivity. }
  rewrite Hbody. clear Hbody.
  destruct (Mgr.row_by_token g (scraped_rows (Mgr.site_page site h)))
    as [[r|]|e] eqn:Er.
  - destruct Hs as (pre & post & c & Hrows & Hc & Hmc & Hpre).
    split; [split; [discriminate | intros (e & He); discriminate He]|].
    split; [split; [discriminate|]|].
    { intros (toks0 & Hc' & Hno). injection Hc' as <-.
      destruct (Hno t Ht Hm). }
    split.
    { intros r'. split.
      - intros Heq. injection Heq as <-. split; [exact Hl|].
        exists pre, post, c. auto.
      - intros (_ & pre' & post' & c' & Hrows' & Hpre' & Hc' & Hm').
        rewrite Hrows' in Er.
        rewrite (row_by_token_first g pre' r' post' c' Hpre' Hc' Hm') in Er.
        injection Er as ->. reflexivity. }
    split; [|intros e He; discriminate He].
    split; [discriminate|].
    intros (_ & pre' & r' & post' & Hrows' & Hpre' & Hlen).
    rewrite Hrows' in Er.
    rewrite (row_by_token_short g pre' r' post' Hpre' Hlen) in Er.
    discriminate Er.
  - contradiction.
  - destruct Hs as (-> & pre & r & post & Hrows & Hlen & Hpre).
    split; [split; [discriminate | intros (e & He); discriminate He]|].
    split; [split; [discriminate|]|].
    { intros (toks0 & Hc' & Hno). injection Hc' as <-.
      destruct (Hno t Ht Hm). }
    split.
    { intros r'. split; [discriminate|].
      intros (_ & pre' & post' & c' & Hrows' & Hpre' & Hc' & Hm').
      rewrite Hrows' in Er.
      rewrite (row_by_token_first g pre' r' post' c' Hpre' Hc' Hm') in Er.
      discriminate Er. }
    split.
    { split; [|reflexivity]. intros _. split; [exact Hl|].
      exists pre, r, post. auto. }
    intros e He. injection He as <-. right; reflexivity.
Qed.

Lemma find_row_by_token_outcomes_witness :
  fst (Mgr._find_row_by_token (Demo.static_site Demo.broken_rows) "def456" [])
  = Raise NoSuchElementException
  /\ fst (Mgr._find_row_by_token (Demo.static_site Demo.two_tokens) "zzz" [])
     = Ok None.
Proof.
  split.
  - apply (proj1 (proj2 (find_row_by_token_outcomes
                           (Demo.static_site Demo.broken_rows) "def456" []))).
    exists NoSuchElementException. reflexivity.
  - apply (proj1 (proj2 (proj2 (find_row_by_token_outcomes
                                  (Demo.static_site Demo.two_tokens) "zzz" [])))).
    eexists. split; [reflexivity|].
    intros t [<-|[<-|[]]]; simpl; discriminate.
Defined.

(** ** Further properties: interactive sign-in, the shared instance *)

Lemma interactive_loop_inert site n : forall h r h',
  Mgr.interactive_loop site n h = (r, h') ->
  actions_of h' = actions_of h
  /\ forall e, r = Raise e -> e = RuntimeError Mgr.interactive_timeout.
Proof.
  induction n as [|n IH]; intros h r h'; simpl.
  - unfold Mgr.raise. intros H. injection H as <- <-.
    split; [reflexivity|]. intros e He. injection He as <-. reflexivity.
  - unfold Mgr.bind at 1, Mgr.emit. unfold Mgr.bind at 1, Mgr.current_url.
    destruct (negb _).
    + unfold Mgr.bind at 1, Mgr.emit. unfold Mgr.bind at 1.
      rewrite has_token_table_run.
      destruct (shows_table _).
      * unfold Mgr.ret. intros H. injection H as <- <-.
        split; [reflexivity | discriminate].
      * intros H. apply IH in H as [Ha He]. split; [exact Ha | exact He].
    + intros H. apply IH in H as [Ha He]. split; [exact Ha | exact He].
Qed.

(** X12. In interactive mode [ensure_signed_in] never types, clicks or
    submits: it only navigates and sleeps. The only exception it raises
    is the [RuntimeError] for the timeout, and credentials in the
    environment are not used. *)
Theorem ensure_signed_in_interactive site env self timeout h r h' :
  Mgr.ensure_signed_in site env self true timeout h = (r, h') ->
  actions_of h' = actions_of h
  /\ forall e, r = Raise e -> e = RuntimeError Mgr.interactive_timeout.
Proof.
  unfold Mgr.ensure_signed_in.
  unfold Mgr.bind at 1, Mgr.emit. unfold Mgr.bind at 1.
  rewrite has_token_table_run.
  destruct (shows_table _).
  - unfold Mgr.ret. intros H. injection H as <- <-.
    split; [reflexivity | discriminate].
  - simpl negb. simpl andb. unfold Mgr.bind at 1, Mgr.ret.
    unfold Mgr.bind at 1, Mgr.emit.
    intros H. apply interactive_loop_inert in H as [Ha He].
    split; [exact Ha | exact He].
Qed.

Lemma ensure_signed_in_interactive_witness :
  actions_of (snd (Mgr.ensure_signed_in Demo.guarded_site Demo.creds
                     Demo.no_callback true 6 []))
  = actions_of []
  /\ forall e,
       @Raise unit (RuntimeError Mgr.interactive_timeout) = Raise e ->
       e = RuntimeError Mgr.interactive_timeout.
Proof.
  apply (ensure_signed_in_interactive Demo.guarded_site Demo.creds
           Demo.no_callback 6 [] (@Raise unit (RuntimeError Mgr.interactive_timeout))).
  reflexivity.
Defined.

(** X13. A module-level operation called before any [init_manager]
    builds the shared instance with the default arguments: it has no
    guard-code callback and a throttle of one second, the operation runs
    on it, and no later [init_manager], whatever its arguments, returns
    another instance or adds a callback. *)
Theorem first_use_fixes_defaults {A} launch
    (method : Mgr.Manager -> Mgr.M A) g h :
  _singleton g = None -> launch default_kwargs = Ok tt ->
  exists m g',
    forward launch method g h = (fst (method m h), g', snd (method m h))
    /\ _singleton g' = Some m
    /\ Mgr.get_guard_code m = None /\ Mgr.throttle m = 1000%N
    /\ forall kw, init_manager launch kw g' = (Ok m, g').
Proof.
  intros Hs Hl.
  exists (Mgr.mkManager (next_id g) None 1000),
         (mkGlobals (Some (Mgr.mkManager (next_id g) None 1000)) (S (next_id g))).
  split; [|split; [reflexivity|split; [reflexivity|split; [reflexivity|]]]].
  - unfold forward, init_manager, new_manager. rewrite Hs, Hl. simpl.
    destruct (method _ h); reflexivity.
  - intros kw. apply init_manager_keeps. reflexivity.
Qed.

Lemma first_use_fixes_defaults_witness :
  exists m g',
    forward Demo.launch_ok
      (fun mgr => Mgr.is_token_valid (Demo.static_site Demo.two_tokens)
                    Demo.creds mgr "abc123")
      (mkGlobals None 0) []
    = (fst (Mgr.is_token_valid (Demo.static_site Demo.two_tokens)
              Demo.creds m "abc123" []), g',
       snd (Mgr.is_token_valid (Demo.static_site Demo.two_tokens)
              Demo.creds m "abc123" []))
    /\ _singleton g' = Some m
    /\ Mgr.get_guard_code m = None /\ Mgr.throttle m = 1000%N
    /\ forall kw, init_manager Demo.launch_ok kw g' = (Ok m, g').
Proof.
  apply (first_use_fixes_defaults Demo.launch_ok
           (fun mgr => Mgr.is_token_valid (Demo.static_site Demo.two_tokens)
                         Demo.creds mgr "abc123")
           (mkGlobals None 0) []); reflexivity.
Defined.

(** X14. When the browser fails to start, [init_manager] raises the
    error and leaves the module without an instance, so that the next
    call tries again; a module-level operation in that state raises the
    same error and sends nothing to a browser. *)
Theorem failed_launch_leaves_no_instance {A} launch kw e
    (method : Mgr.Manager -> Mgr.M A) g h :
  _singleton g = None -> launch kw = Raise e ->
  init_manager launch kw g = (Raise e, g)
  /\ (kw = default_kwargs -> forward launch method g h = (Raise e, g, h)).
Proof.
  intros Hs Hl.
  assert (Hi : init_manager launch kw g = (Raise e, g)).
  { unfold init_manager, new_manager. rewrite Hs, Hl. reflexivity. }
  split; [exact Hi|].
  intros ->. unfold forward. rewrite Hi. reflexivity.
Qed.

Lemma failed_launch_leaves_no_instance_witness :
  init_manager (fun _ => Raise TimeoutException) default_kwargs (mkGlobals None 0)
  = (Raise TimeoutException, mkGlobals None 0)
  /\ (default_kwargs = default_kwargs ->
      forward (fun _ => Raise TimeoutException)
        (fun mgr => Mgr.is_token_valid (Demo.static_site Demo.two_tokens)
                      Demo.creds mgr "abc123")
        (mkGlobals None 0) []
      = (Raise TimeoutException, mkGlobals None 0, [])).
Proof.
  apply (failed_launch_leaves_no_instance (fun _ => Raise TimeoutException)
           default_kwargs TimeoutException
           (fun mgr => Mgr.is_token_valid (Demo.static_site Demo.two_tokens)
                         Demo.creds mgr "abc123")
           (mkGlobals None 0) []); reflexivity.
Defined.

(** ** Further properties: what the login flow sends, search by steamid *)

Section AddsOnly.

Variable site : Mgr.Site.
Variable Q : Mgr.Event -> Prop.

Lemma adds_only_ret {A} (a : A) : adds_only Q (Mgr.ret a).
Proof. intros h e He. left. exact He. Qed.

Lemma adds_only_raise {A} x : adds_only Q (@Mgr.raise A x).
Proof. intros h e He. left. exact He. Qed.

Lemma adds_only_lift {A} (r : res A) : adds_only Q (Mgr.lift r).
Proof. intros h e He. left. exact He. Qed.

Lemma adds_only_page : adds_only Q (Mgr.page site).
Proof. intros h e He. left. exact He. Qed.

Lemma adds_only_emit ev : Q ev -> adds_only Q (Mgr.emit ev).
Proof. intros Hq h e [<-|He]; [right; exact Hq | left; exact He]. Qed.

Lemma adds_only_bind {A B} (m : Mgr.M A) (f : A -> Mgr.M B) :
  adds_only Q m -> (forall a, adds_only Q (f a)) -> adds_only Q (Mgr.bind m f).
Proof.
  intros Hm Hf h e. unfold Mgr.bind. specialize (Hm h e).
  destruct (m h) as [[a|x] h1]; simpl in *.
  - intros He. destruct (Hf a h1 e He) as [H1|Hq]; [apply Hm, H1 | right; exact Hq].
  - exact Hm.
Qed.

Lemma adds_only_bind_value {A B} (P : A -> Prop) (m : Mgr.M A)
    (f : A -> Mgr.M B) :
  (forall h a h1, m h = (Ok a, h1) -> P a) ->
  adds_only Q m -> (forall a, P a -> adds_only Q (f a)) ->
  adds_only Q (Mgr.bind m f).
Proof.
  intros HP Hm Hf h e. unfold Mgr.bind. specialize (Hm h e).
  destruct (m h) as [[a|x] h1] eqn:E; simpl in *.
  - intros He. destruct (Hf a (HP h a h1 E) h1 e He) as [H1|Hq];
      [apply Hm, H1 | right; exact Hq].
  - exact Hm.
Qed.

Lemma adds_only_try {A} (m handler : Mgr.M A) :
  adds_only Q m -> adds_only Q handler -> adds_only Q (Mgr.try_except m handler).
Proof.
  intros Hm Hh h e. unfold Mgr.try_except. specialize (Hm h e).
  destruct (m h) as [[a|x] h1]; simpl in *.
  - exact Hm.
  - intros He. destruct (Hh h1 e He) as [H1|Hq]; [apply Hm, H1 | right; exact Hq].
Qed.

Lemma adds_only_wait t cond : Q Mgr.Poll -> adds_only Q (Mgr.wait_until t cond).
Proof.
  intros Hq h e He. unfold Mgr.wait_until in He.
  destruct (wait_loop_history (2 * t - 1) cond h) as [k Hk]. rewrite Hk in He.
  apply in_app_or in He as [He|He]; [|left; exact He].
  unfold polls in He. apply repeat_spec in He. subst e. right. exact Hq.
Qed.

Lemma adds_only_find_element_by_id i : adds_only Q (Mgr.find_element_by_id site i).
Proof.
  unfold Mgr.find_element_by_id.
  apply adds_only_bind; [apply adds_only_page|]. intros p.
  destruct (has_id i p); [apply adds_only_ret | apply adds_only_raise].
Qed.

End AddsOnly.

(** X16. Everything [_login_flow] sends to the browser is one of: a
    poll of a wait, the user name typed into [input_username], the
    password typed into [input_password], a click on the submit button,
    a click on the guard prompt's button, or the text returned by the
    guard-code callback typed into [authcode]. In particular nothing is
    typed into [authcode] without a callback that returned a non-empty
    code, and no form is submitted by script. *)
Theorem login_flow_events site env self :
  adds_only (login_event env self) (Mgr._login_flow site env self).
Proof.
  unfold Mgr._login_flow.
  apply adds_only_bind.
  { apply adds_only_try; [|apply adds_only_ret].
    apply adds_only_bind; [|intros; apply adds_only_ret].
    apply adds_only_wait. left; reflexivity. }
  intros shown. destruct (negb shown); [apply adds_only_ret|].
  destruct (_ || _); [apply adds_only_raise|].
  apply adds_only_bind; [apply adds_only_find_element_by_id|]. intros _.
  apply adds_only_bind;
    [apply adds_only_emit; right; left; reflexivity|]. intros _.
  apply adds_only_bind; [apply adds_only_find_element_by_id|]. intros _.
  apply adds_only_bind;
    [apply adds_only_emit; right; right; left; reflexivity|]. intros _.
  apply adds_only_bind; [apply adds_only_page|]. intros p.
  apply adds_only_bind.
  { destruct (page_submit_button p); [apply adds_only_ret | apply adds_only_raise]. }
  intros _.
  apply adds_only_bind;
    [apply adds_only_emit; right; right; right; left; reflexivity|]. intros _.
  apply adds_only_try; [|apply adds_only_ret].
  unfold Mgr.guard_block.
  apply adds_only_bind; [apply adds_only_wait; left; reflexivity|]. intros _.
  apply (adds_only_bind_value _
           (fun code => forall c, code = Some c ->
                                  Mgr.get_guard_code self = Some (Ok c))).
  - intros h code h1.
    destruct (Mgr.get_guard_code self) as [[c0|x]|]; simpl;
      intros H; inversion H; subst; intros c Hc; inversion Hc; reflexivity.
  - destruct (Mgr.get_guard_code self) as [callback|]; [|apply adds_only_ret].
    apply adds_only_bind; [apply adds_only_lift | intros; apply adds_only_ret].
  - intros [code|] Hcode; simpl; [|apply adds_only_raise].
    unfold Py.truthy.
    destruct (String.eqb_spec code "") as [->|Hne]; simpl;
      [apply adds_only_raise|].
    apply adds_only_bind.
    { apply adds_only_emit. do 4 right. left. exists code. auto. }
    intros _.
    apply adds_only_bind; [apply adds_only_find_element_by_id|]. intros _.
    apply adds_only_bind;
      [apply adds_only_emit; do 5 right; reflexivity|]. intros _.
    apply adds_only_wait. left; reflexivity.
Qed.

Lemma login_flow_events_witness :
  In (Mgr.Click "button[type='submit']") []
  \/ login_event Demo.creds Demo.no_callback (Mgr.Click "button[type='submit']").
Proof.
  apply (login_flow_events Demo.guarded_site Demo.creds Demo.no_callback []
           (Mgr.Click "button[type='submit']")).
  left. reflexivity.
Defined.

Lemma skipped_cons sid r s pre :
  Mgr._extract_steamid_from_row r = Ok s -> s <> sid ->
  skipped sid pre -> skipped sid (r :: pre).
Proof.
  intros He Hne Hpre r' [<-|Hin]; [exists s; auto | apply Hpre, Hin].
Qed.

Lemma row_by_steamid_spec sid rows :
  match Mgr.row_by_steamid sid rows with
  | Ok (Some r) =>
      exists pre post,
        rows = pre ++ r :: post
        /\ Mgr._extract_steamid_from_row r = Ok sid /\ skipped sid pre
  | Ok None => skipped sid rows
  | Raise e =>
      exists pre r post,
        rows = pre ++ r :: post
        /\ Mgr._extract_steamid_from_row r = Raise e /\ skipped sid pre
  end.
Proof.
  induction rows as [|r rows IH]; simpl.
  - intros r [].
  - destruct (Mgr._extract_steamid_from_row r) as [s|e] eqn:Ee.
    + destruct (String.eqb_spec s sid) as [->|Hne].
      * exists [], rows. split; [reflexivity|]. split; [exact Ee|]. intros r' [].
      * destruct (Mgr.row_by_steamid sid rows) as [[r0|]|e].
        -- destruct IH as (pre & post & -> & He & Hpre).
           exists (r :: pre), post. split; [reflexivity|]. split; [exact He|].
           apply (skipped_cons sid r s pre Ee Hne Hpre).
        -- apply (skipped_cons sid r s rows Ee Hne IH).
        -- destruct IH as (pre & r0 & post & -> & He & Hpre).
           exists (r :: pre), r0, post. split; [reflexivity|]. split; [exact He|].
           apply (skipped_cons sid r s pre Ee Hne Hpre).
    + exists [], r, rows. split; [reflexivity|]. split; [exact Ee|]. intros r' [].
Qed.

(** X17. [_find_row_by_steamid] changes nothing and gives the first
    body row whose steamid extraction returns the given steamid, [None]
    when extraction succeeds on every row with another result. It raises
    [NoSuchElementException] when the page has no table, and otherwise
    exactly what extraction raises on the first row where it fails, if
    no earlier row matched: [IndexError] for a row without cells,
    [NoSuchElementException] for a form without its field. *)
Theorem find_row_by_steamid_outcomes site sid h :
  snd (Mgr._find_row_by_steamid site sid h) = h
  /\ match fst (Mgr._find_row_by_steamid site sid h) with
     | Ok (Some r) =>
         exists pre post,
           scraped_rows (Mgr.site_page site h) = pre ++ r :: post
           /\ Mgr._extract_steamid_from_row r = Ok sid /\ skipped sid pre
     | Ok None =>
         shows_table (Mgr.site_page site h) = true
         /\ skipped sid (scraped_rows (Mgr.site_page site h))
     | Raise e =>
         (shows_table (Mgr.site_page site h) = false
          /\ e = NoSuchElementException)
         \/ (exists pre r post,
               scraped_rows (Mgr.site_page site h) = pre ++ r :: post
               /\ Mgr._extract_steamid_from_row r = Raise e
               /\ skipped sid pre
               /\ (e = IndexError /\ row_tds r = []
                   \/ e = NoSuchElementException))
     end.
Proof.
  unfold Mgr._find_row_by_steamid, Mgr.bind. rewrite table_body_run.
  pose proof (row_by_steamid_spec sid (scraped_rows (Mgr.site_page site h))) as Hs.
  unfold scraped_rows, shows_table in *.
  destruct (page_server_list (Mgr.site_page site h)) as [[|table tables]|];
    try (simpl; split; [reflexivity | left; split; reflexivity]).
  unfold Mgr.lift. simpl. split; [reflexivity|].
  destruct (Mgr.row_by_steamid sid (table_rows table)) as [[r|]|e].
  - exact Hs.
  - split; [reflexivity | exact Hs].
  - right. destruct Hs as (pre & r & post & Hrows & He & Hpre).
    exists pre, r, post. split; [exact Hrows|]. split; [exact He|].
    split; [exact Hpre|].
    pose proof (extract_steamid_outcomes_raise r e He) as Ho. exact Ho.
Qed.

(** ** Further properties: what the public answers mean *)

Lemma token_row_valid p toks t :
  Mgr.parse_token_table p = Ok toks -> In t toks ->
  exists r c,
    In r (scraped_rows p) /\ well_formed_row r = true
    /\ nth_error (row_tds r) 1 = Some c
    /\ gslt t = Py.strip (cell_text c)
    /\ valid t = Mgr._cell_not_struck c.
Proof.
  rewrite parse_token_table_rows. intros H Hin.
  destruct (parse_rows_from _ _ _ H Hin) as (r & Hr & Hp).
  apply parse_row_spec in Hp. destruct Hp as (Hw & (_ & Hg & _) & _ & Hv).
  pose proof Hw as Hw'.
  unfold well_formed_row in Hw'. apply andb_prop in Hw' as [Hl _].
  apply Nat.leb_le in Hl. unfold cell_txt in Hg.
  destruct (nth_error (row_tds r) 1) as [c|] eqn:Ec.
  - exists r, c. repeat (split; [auto; fail|]). apply Hv. reflexivity.
  - apply nth_error_None in Ec. lia.
Qed.

(** X18. A [True] from [is_token_valid] means what it says: the page
    the call ends on has a body row of five cells or more with an
    integer first cell whose second cell equals the token up to letter
    case and shows no strikethrough signal. *)
Theorem is_token_valid_true site env self g h h' :
  Mgr.is_token_valid site env self g h = (Ok true, h') ->
  exists r c,
    In r (scraped_rows (Mgr.site_page site h'))
    /\ well_formed_row r = true
    /\ nth_error (row_tds r) 1 = Some c
    /\ Py.upper (Py.strip (cell_text c)) = Py.upper g
    /\ Mgr._cell_not_struck c = true.
Proof.
  unfold Mgr.is_token_valid. intros H.
  apply bind_ok_inv in H as (u & h1 & _ & H).
  apply bind_ok_inv in H as (toks & h2 & Hp & H).
  rewrite parse_token_table_run in Hp. injection Hp as Hp <-.
  destruct (find _ toks) as [t|] eqn:Ef; [|discriminate H].
  unfold Mgr.ret in H. injection H as Hv <-.
  apply find_some in Ef as [Ht Hm]. apply String.eqb_eq in Hm.
  destruct (token_row_valid _ _ _ Hp Ht) as (r & c & Hr & Hw & Hc & Hg & Hvc).
  exists r, c. split; [exact Hr|]. split; [exact Hw|]. split; [exact Hc|].
  split; [rewrite <- Hg; exact Hm | congruence].
Qed.

Lemma is_token_valid_true_witness :
  exists r c,
    In r (scraped_rows (Mgr.site_page (Demo.static_site Demo.two_tokens)
                          [Mgr.Get Mgr.MANAGE_URL]))
    /\ well_formed_row r = true
    /\ nth_error (row_tds r) 1 = Some c
    /\ Py.upper (Py.strip (cell_text c)) = Py.upper "abc123"
    /\ Mgr._cell_not_struck c = true.
Proof.
  apply (is_token_valid_true (Demo.static_site Demo.two_tokens) Demo.creds
           Demo.no_callback "abc123" [] [Mgr.Get Mgr.MANAGE_URL]).
  reflexivity.
Defined.

Lemma Forall2_filter {A B} (R : A -> B -> Prop) (p : A -> bool) (q : B -> bool)
    xs ys :
  (forall x y, R x y -> p x = q y) ->
  Forall2 R xs ys -> Forall2 R (filter p xs) (filter q ys).
Proof.
  intros Hpq H. induction H as [|x y xs ys Hxy H IH]; simpl; [constructor|].
  rewrite (Hpq x y Hxy). destruct (q y); [constructor; assumption | exact IH].
Qed.

(** X19. [get_all_tokens] with an appid returns, in table order, exactly
    one record for each body row of the page it ends on that has five
    cells or more and a first cell reading that integer, with the row's
    token, last logon and memo; without an appid, one record for each
    row with an integer first cell. *)
Theorem get_all_tokens_listing_by_appid site env self a h toks h' :
  Mgr.get_all_tokens site env self a h = (Ok toks, h') ->
  Forall2 row_yields
    (filter (fun r => well_formed_row r && reads_appid a r)
            (scraped_rows (Mgr.site_page site h')))
    toks.
Proof.
  unfold Mgr.get_all_tokens. intros H.
  apply bind_ok_inv in H as (u & h1 & _ & H).
  apply bind_ok_inv in H as (all & h2 & Hp & H).
  rewrite parse_token_table_run in Hp. injection Hp as Hp <-.
  rewrite parse_token_table_rows in Hp. apply parse_rows_spec in Hp.
  assert (Hsplit : forall rows,
             filter (fun r => well_formed_row r && reads_appid a r) rows
             = filter (reads_appid a) (filter well_formed_row rows)).
  { intros rows. induction rows as [|r rows IH]; simpl; [reflexivity|].
    destruct (well_formed_row r); simpl; [|exact IH].
    destruct (reads_appid a r); rewrite IH; reflexivity. }
  rewrite Hsplit.
  destruct a as [a|]; unfold Mgr.ret in H; injection H as <- <-.
  - apply Forall2_filter; [|exact Hp].
    intros r t (Hi & _). unfold reads_appid. rewrite Hi. reflexivity.
  - replace all with (filter (fun _ : Token => true) all) at 1.
    + apply Forall2_filter; [|exact Hp]. intros r t _. reflexivity.
    + clear. induction all as [|t all IH]; simpl; [reflexivity|].
      rewrite IH. reflexivity.
Qed.

Lemma get_all_tokens_listing_by_appid_witness :
  Forall2 row_yields
    (filter (fun r => well_formed_row r && reads_appid (Some 730%Z) r)
            (scraped_rows (Mgr.site_page (Demo.static_site Demo.two_tokens)
                             [Mgr.Get Mgr.MANAGE_URL])))
    [mkToken 730 "ABC123" None "bot1" "1" true;
     mkToken 730 "DEF456" None "bot2" "2" false].
Proof.
  apply (get_all_tokens_listing_by_appid (Demo.static_site Demo.two_tokens)
           Demo.creds Demo.no_callback (Some 730%Z) []).
  reflexivity.
Defined.
